(** * Dioptra REST API: services and response builders

    A shallow embedding of the parts of [dioptra.restapi.v1] that the
    specification talks about:

    - [v1/utils.py]: [build_url], [build_paging_url],
      [build_paging_envelope], [build_group], [build_queue];
    - [v1/plugin_parameter_types/service.py]: the three plugin parameter
      type services over the resource / snapshot / lock tables;
    - [v1/users/service.py]: [UserPasswordService.authenticate] and
      [UserPasswordService.change]; [UserCurrentService.modify],
      [UserCurrentService.delete] and [UserCurrentService.change_password];
    - [v1/queues/controller.py]: [QueueEndpoint.get];
    - [v1/shared/snapshots/controller.py]: [ResourceSnapshotsEndpoint.get].

    Python values that leave the service layer (response dictionaries) are
    values of [pyval]; dictionaries are association lists in insertion
    order, as Python dictionaries are; exceptions are the [Raise] branch of
    [result]; the database session is threaded explicitly. *)

From Stdlib Require Import ZArith List String Ascii Bool Lia.
From Stdlib Require Import Permutation.
From Stdlib Require Import Decimal DecimalString DecimalZ.
Import ListNotations.

Local Open Scope string_scope.
Local Open Scope Z_scope.

Set Implicit Arguments.
Local Set Warnings "-register-all".

(* ===================================================================== *)
(** * Part I: definitions                                                  *)
(* ===================================================================== *)

(** ** Exceptions and results *)

(** Why a call raises [TypeError] while its arguments are bound to the
    parameters of the function. *)
Inductive bind_error : Type :=
| UnexpectedKeyword (name : string)
| MultipleValues (name : string)
| TooManyPositional (takes given : nat)
| MissingPositional (names : list string).

Inductive exn : Type :=
| TypeError (reason : bind_error)
| KeyError
| NotModelled
| PluginParameterTypeAlreadyExistsError
| PluginParameterTypeDoesNotExistError
| SearchNotImplementedError
| BackendDatabaseError
| GroupDoesNotExistError
| UserPasswordChangeError
| UserPasswordChangeSamePasswordError
| UserPasswordExpiredError
| UserPasswordVerificationError.

Inductive result (A : Type) : Type :=
| Ok (a : A)
| Raise (e : exn).

Arguments Ok {A} a.
Arguments Raise {A} e.

Definition bind_result {A B} (r : result A) (k : A -> result B) : result B :=
  match r with
  | Ok a => k a
  | Raise e => Raise e
  end.

Declare Scope result_scope.
Delimit Scope result_scope with result.
Notation "x <- r ;; k" := (bind_result r (fun x => k))
  (at level 61, r at next level, right associativity) : result_scope.

(** ** Python values and dictionaries *)

(** A datetime is the number of microseconds since the epoch (UTC). *)
Definition datetime := Z.

Inductive pyval : Type :=
| PNone
| PBool (b : bool)
| PInt (z : Z)
| PStr (s : string)
| PDatetime (t : datetime)
| PList (l : list pyval)
| PDict (d : list (string * pyval)).

(** Keys with a decidable equality: [str] and [int] keys are used. *)
Class EqKey (K : Type) := {
  keqb : K -> K -> bool;
  keqb_spec : forall x y, reflect (x = y) (keqb x y)
}.

#[export] Instance EqKey_string : EqKey string :=
  {| keqb := String.eqb; keqb_spec := String.eqb_spec |}.

#[export] Instance EqKey_Z : EqKey Z :=
  {| keqb := Z.eqb; keqb_spec := Z.eqb_spec |}.

(** A Python [dict]: an association list in insertion order, with at most
    one binding for a key as long as it is only built with [dict_set]. *)
Definition dict (K V : Type) := list (K * V).

Section Dict.
Context {K V : Type} `{EqKey K}.

(** [d.get(k)]: [None] when the key is absent. *)
Fixpoint dict_get (k : K) (d : dict K V) : option V :=
  match d with
  | [] => None
  | (k', v) :: d' => if keqb k k' then Some v else dict_get k d'
  end.

(** [d[k] = v]: an existing key keeps its position and receives the new
    value, a new key is appended. *)
Fixpoint dict_set (k : K) (v : V) (d : dict K V) : dict K V :=
  match d with
  | [] => [(k, v)]
  | (k', v') :: d' =>
      if keqb k k' then (k, v) :: d' else (k', v') :: dict_set k v d'
  end.

(** [d[k]]: raises [KeyError] when the key is absent. *)
Definition dict_item (k : K) (d : dict K V) : result V :=
  match dict_get k d with
  | Some v => Ok v
  | None => Raise KeyError
  end.

Definition dict_keys (d : dict K V) : list K := map fst d.
End Dict.

(** Truthiness of the optional values that [build_paging_url] tests. *)
Definition truthy_int (x : option Z) : bool :=
  match x with
  | Some z => negb (z =? 0)
  | None => false
  end.

Definition truthy_str (x : option string) : bool :=
  match x with
  | Some s => negb (String.eqb s "")
  | None => false
  end.

(** ** [urllib.parse]: [quote_plus], [urlencode], [urlunparse] *)

(** The values stored in a query dictionary: [int] and [str]. *)
Inductive qval : Type :=
| QInt (z : Z)
| QStr (s : string).

(** [str(n)] for an [int]. *)
Definition str_of_int (z : Z) : string :=
  NilEmpty.string_of_int (Z.to_int z).

Definition py_str (v : qval) : string :=
  match v with
  | QInt z => str_of_int z
  | QStr s => s
  end.

Definition in_range (lo hi : nat) (c : ascii) : bool :=
  (Nat.leb lo (nat_of_ascii c) && Nat.leb (nat_of_ascii c) hi)%bool.

(** The characters [quote] never escapes: letters, digits and [_.-~]. *)
Definition always_safe (c : ascii) : bool :=
  (in_range 65 90 c || in_range 97 122 c || in_range 48 57 c
   || Ascii.eqb c "_" || Ascii.eqb c "." || Ascii.eqb c "-"
   || Ascii.eqb c "~")%bool.

Definition hex_digit (n : nat) : ascii :=
  match n with
  | 0%nat => "0" | 1%nat => "1" | 2%nat => "2" | 3%nat => "3"
  | 4%nat => "4" | 5%nat => "5" | 6%nat => "6" | 7%nat => "7"
  | 8%nat => "8" | 9%nat => "9" | 10%nat => "A" | 11%nat => "B"
  | 12%nat => "C" | 13%nat => "D" | 14%nat => "E" | _ => "F"
  end%char.

(** [quote_plus(s)] on the UTF-8 bytes of [s]: safe bytes are kept, a space
    becomes [+], any other byte becomes [%XX] with upper-case digits. *)
Fixpoint quote_plus (s : string) : string :=
  match s with
  | EmptyString => EmptyString
  | String c s' =>
      if always_safe c then String c (quote_plus s')
      else if Ascii.eqb c " " then String "+" (quote_plus s')
      else
        String "%"
          (String (hex_digit (nat_of_ascii c / 16))
             (String (hex_digit (nat_of_ascii c mod 16)) (quote_plus s')))
  end.

(** [urlencode(query)] for a dictionary: [k=v] pairs joined by [&]. *)
Definition urlencode (query : dict string qval) : string :=
  String.concat "&"
    (map (fun kv => quote_plus (fst kv) ++ "=" ++ quote_plus (py_str (snd kv)))
       query).

(** [urlunparse(("", "", path, "", query, ""))]: with an empty scheme,
    network location, parameters and fragment, the path is followed by
    [?query] when the query is not empty. *)
Definition urlunparse_path_query (path query : string) : string :=
  if String.eqb query "" then path else path ++ "?" ++ query.

(** ** [v1/utils.py]: URLs and the paging envelope *)

Definition EXPERIMENTS : string := "experiments".
Definition USERS : string := "users".
Definition GROUPS : string := "groups".
Definition PLUGIN_PARAMETER_TYPES : string := "pluginParameterTypes".
Definition PLUGINS : string := "plugins".
Definition PLUGIN_FILES : string := "files".
Definition QUEUES : string := "queues".
Definition TAGS : string := "tags".

Section Urls.
(** [dioptra.restapi.routes.V1_ROOT], a route root such as [api/v1]; the
    module is not among the sources, so the constant is a parameter. *)
Variable V1_ROOT : string.

Definition build_url (route_prefix : string)
    (query_params : option (dict string qval)) : string :=
  let query_params :=
    match query_params with
    | Some (kv :: q) => kv :: q
    | _ => []
    end in
  urlunparse_path_query
    ("/" ++ V1_ROOT ++ "/" ++ route_prefix) (urlencode query_params).

(** The dictionary [query_params] that [build_paging_url] hands to
    [build_url]. *)
Definition paging_query_params (group_id : option Z)
    (search draft_type : option string) (index length : Z)
    : dict string qval :=
  let query_params := [("index", QInt index); ("pageLength", QInt length)] in
  let query_params :=
    match group_id with
    | Some g => if truthy_int group_id
                then dict_set "groupId" (QInt g) query_params
                else query_params
    | None => query_params
    end in
  let query_params :=
    match search with
    | Some s => if truthy_str search
                then dict_set "search" (QStr s) query_params
                else query_params
    | None => query_params
    end in
  let query_params :=
    match draft_type with
    | Some t => if truthy_str draft_type
                then dict_set "draft_type" (QStr t) query_params
                else query_params
    | None => query_params
    end in
  query_params.

Definition build_paging_url (route_prefix : string) (group_id : option Z)
    (search draft_type : option string) (index length : Z) : string :=
  build_url route_prefix
    (Some (paging_query_params group_id search draft_type index length)).

Definition build_paging_envelope {A : Type} (route_prefix : string)
    (build_fn : A -> pyval) (data : list A) (group_id : option Z)
    (query draft_type : option string)
    (index length total_num_elements : Z) : dict string pyval :=
  let has_prev := 0 <? index in
  let has_next := index + length <? total_num_elements in
  let is_complete := negb has_next in
  let paged_data :=
    [ ("index", PInt index);
      ("is_complete", PBool is_complete);
      ("total_num_results", PInt total_num_elements);
      ("first",
       PStr (build_paging_url route_prefix group_id query draft_type
               0 length));
      ("data", PList (map build_fn data)) ] in
  let paged_data :=
    if has_prev then
      let prev_index := Z.max (index - length) 0 in
      let prev_url :=
        build_paging_url route_prefix group_id query draft_type
          prev_index length in
      dict_set "prev" (PStr prev_url) paged_data
    else paged_data in
  let paged_data :=
    if has_next then
      let next_index := index + length in
      let next_url :=
        build_paging_url route_prefix group_id query draft_type
          next_index length in
      dict_set "next" (PStr next_url) paged_data
    else paged_data in
  paged_data.
End Urls.

(** ** ORM objects read by the response builders *)

(** Modelled from the spec: [dioptra.restapi.db.models] is not among the
    sources; each record lists the attributes that the code under
    verification reads or writes. *)
Definition uuid := N.

Module User.
Record t : Type := mk {
  user_id : Z;
  username : string;
  email_address : string;
  password : string;
  alternative_id : uuid;
  created_on : datetime;
  last_modified_on : datetime;
  last_login_on : datetime;
  password_expire_on : datetime
}.
End User.

Module GroupMember.
Record t : Type := mk {
  user_id : Z;
  user : User.t;
  read : bool;
  write : bool;
  share_read : bool;
  share_write : bool
}.
End GroupMember.

Module GroupManager.
Record t : Type := mk {
  user_id : Z;
  owner : bool;
  admin : bool
}.
End GroupManager.

Module Group.
Record t : Type := mk {
  group_id : Z;
  name : string;
  creator : User.t;
  members : list GroupMember.t;
  managers : list GroupManager.t;
  created_on : datetime;
  last_modified_on : datetime
}.
End Group.

Module Tag.
Record t : Type := mk {
  tag_id : Z;
  name : string;
  owner : Group.t;
  creator : User.t
}.
End Tag.

(** The [resource] relationship of a loaded snapshot, with its derived
    columns. *)
Module LoadedResource.
Record t : Type := mk {
  owner : Group.t;
  last_modified_on : datetime;
  latest_snapshot_id : Z
}.
End LoadedResource.

Module Queue.
Record t : Type := mk {
  resource_id : Z;
  resource_snapshot_id : Z;
  name : string;
  description : string;
  creator : User.t;
  resource : LoadedResource.t;
  created_on : datetime;
  tags : list Tag.t
}.
End Queue.

(** The [QueueDict] typed dictionary. *)
Module QueueDict.
Record t : Type := mk {
  queue : Queue.t;
  has_draft : option bool
}.
End QueueDict.

(** ** [v1/utils.py]: reference and full response dictionaries *)









Section Builders.
Variable V1_ROOT : string.

Definition build_user_ref (user : User.t) : dict string pyval :=
  [ ("id", PInt (User.user_id user));
    ("username", PStr (User.username user));
    ("url",
     PStr (build_url V1_ROOT
             (USERS ++ "/" ++ str_of_int (User.user_id user)) None)) ].

Definition build_group_ref (group : Group.t) : dict string pyval :=
  [ ("id", PInt (Group.group_id group));
    ("name", PStr (Group.name group));
    ("url",
     PStr (build_url V1_ROOT
             (GROUPS ++ "/" ++ str_of_int (Group.group_id group)) None)) ].

Definition build_tag_ref (tag : Tag.t) : dict string pyval :=
  [ ("id", PInt (Tag.tag_id tag));
    ("name", PStr (Tag.name tag));
    ("group", PDict (build_group_ref (Tag.owner tag)));
    ("url",
     PStr (build_url V1_ROOT
             (TAGS ++ "/" ++ str_of_int (Tag.tag_id tag)) None)) ].







Definition build_queue (queue_dict : QueueDict.t) : pyval :=
  let queue := QueueDict.queue queue_dict in
  let has_draft := QueueDict.has_draft queue_dict in
  let data :=
    [ ("id", PInt (Queue.resource_id queue));
      ("snapshot_id", PInt (Queue.resource_snapshot_id queue));
      ("name", PStr (Queue.name queue));
      ("description", PStr (Queue.description queue));
      ("user", PDict (build_user_ref (Queue.creator queue)));
      ("group",
       PDict (build_group_ref (LoadedResource.owner (Queue.resource queue))));
      ("created_on", PDatetime (Queue.created_on queue));
      ("last_modified_on",
       PDatetime (LoadedResource.last_modified_on (Queue.resource queue)));
      ("latest_snapshot",
       PBool (LoadedResource.latest_snapshot_id (Queue.resource queue)
              =? Queue.resource_snapshot_id queue));
      ("tags", PList (map (fun tag => PDict (build_tag_ref tag))
                        (Queue.tags queue))) ] in
  let data :=
    match has_draft with
    | Some b => dict_set "has_draft" (PBool b) data
    | None => data
    end in
  PDict data.
End Builders.

(** ** The tables behind the plugin parameter type services *)

(** Modelled from the spec: the tables of [dioptra.restapi.db.models]. A
    [Resource] row carries the identity, the type and the owning group;
    every version of a plugin parameter type is one
    [PluginTaskParameterType] snapshot row; a [ResourceLock] row records a
    lock event on a resource. *)
Module Resource.
Record t : Type := mk {
  resource_id : Z;
  resource_type : string;
  group_id : Z
}.
End Resource.

Module PluginTaskParameterType.
Record t : Type := mk {
  resource_snapshot_id : Z;
  resource_id : Z;
  name : string;
  structure : pyval;
  description : string;
  creator : Z
}.
End PluginTaskParameterType.

Module ResourceLock.
Record t : Type := mk {
  resource_id : Z;
  resource_lock_type : string
}.
End ResourceLock.

(** The session: the tables in insertion order and the two counters that
    hand out primary keys. *)
Record db : Type := mkdb {
  groups : list Group.t;
  resources : list Resource.t;
  plugin_task_parameter_types : list PluginTaskParameterType.t;
  resource_locks : list ResourceLock.t;
  next_resource_id : Z;
  next_resource_snapshot_id : Z
}.

Definition empty_db : db := mkdb [] [] [] [] 1 1.

Definition RESOURCE_TYPE : string := "plugin_task_parameter_type".

(** Modelled from the spec: [Resource.is_deleted]; the presence of a
    "delete" lock is equivalent to [is_deleted]. *)
Definition is_deleted (s : db) (resource_id : Z) : bool :=
  existsb
    (fun l =>
       (ResourceLock.resource_id l =? resource_id)
       && String.eqb (ResourceLock.resource_lock_type l) "delete")%bool
    (resource_locks s).

(** Modelled from the spec: [Resource.latest_snapshot_id], the pointer to
    the current version: the snapshot of the resource inserted last. *)
Definition latest_snapshot_id (s : db) (resource_id : Z) : option Z :=
  option_map PluginTaskParameterType.resource_snapshot_id
    (find (fun p => PluginTaskParameterType.resource_id p =? resource_id)
       (List.rev (plugin_task_parameter_types s))).

Definition is_latest (s : db) (p : PluginTaskParameterType.t)
    (r : Resource.t) : bool :=
  match latest_snapshot_id s (Resource.resource_id r) with
  | Some i => i =? PluginTaskParameterType.resource_snapshot_id p
  | None => false
  end.

(** A loaded ORM object: the snapshot row and the row of its [resource]
    relationship. *)
Definition plugin_parameter_type : Type :=
  (PluginTaskParameterType.t * Resource.t)%type.

(** [select(PluginTaskParameterType).join(Resource)]: every snapshot row
    with the resource row its foreign key points to. No statement of the
    services orders its rows; the rows come in insertion order here, the
    same order for every statement. *)
Definition join_resource (s : db) : list plugin_parameter_type :=
  flat_map
    (fun p =>
       map (pair p)
         (filter
            (fun r =>
               Resource.resource_id r
               =? PluginTaskParameterType.resource_id p)
            (resources s)))
    (plugin_task_parameter_types s).

(** [.offset(i).limit(n)], for the non-negative offsets and limits of a
    paging request. *)
Definition offset_limit {A : Type} (i n : Z) (rows : list A) : list A :=
  firstn (Z.to_nat n) (skipn (Z.to_nat i) rows).

(** Modelled from the spec: [db.session.add] of a snapshot built with a new
    [Resource]: both rows are inserted, each with the next primary key. *)
Definition add_resource_with_snapshot (group : Group.t)
    (name : string) (structure : pyval) (description : string)
    (creator : Z) (s : db) : plugin_parameter_type * db :=
  let resource :=
    Resource.mk (next_resource_id s) RESOURCE_TYPE (Group.group_id group) in
  let p :=
    PluginTaskParameterType.mk (next_resource_snapshot_id s)
      (Resource.resource_id resource) name structure description creator in
  ((p, resource),
   mkdb (groups s) (resources s ++ [resource])
     (plugin_task_parameter_types s ++ [p]) (resource_locks s)
     (next_resource_id s + 1) (next_resource_snapshot_id s + 1)).

(** Modelled from the spec: [db.session.add] of a snapshot built on an
    existing resource: one snapshot row with the next snapshot id. *)
Definition add_snapshot (resource : Resource.t)
    (name : string) (structure : pyval) (description : string)
    (creator : Z) (s : db) : plugin_parameter_type * db :=
  let p :=
    PluginTaskParameterType.mk (next_resource_snapshot_id s)
      (Resource.resource_id resource) name structure description creator in
  ((p, resource),
   mkdb (groups s) (resources s)
     (plugin_task_parameter_types s ++ [p]) (resource_locks s)
     (next_resource_id s) (next_resource_snapshot_id s + 1)).

(** Modelled from the spec: [db.session.add] of a [ResourceLock]. *)
Definition add_resource_lock (resource_lock_type : string)
    (resource : Resource.t) (s : db) : db :=
  mkdb (groups s) (resources s) (plugin_task_parameter_types s)
    (resource_locks s
     ++ [ResourceLock.mk (Resource.resource_id resource) resource_lock_type])
    (next_resource_id s) (next_resource_snapshot_id s).

(** [db.session.commit()]: the session is the only view of the tables
    here, so committing leaves it as it is. *)
Definition session_commit (s : db) : db := s.

(** Modelled from the spec: [GroupIdService.get] is not among the sources;
    it follows the get-by-id pattern of the other services. *)
Definition GroupIdService_get (group_id : Z) (error_if_not_found : bool)
    (s : db) : result (option Group.t) :=
  match find (fun g => Group.group_id g =? group_id) (groups s) with
  | Some g => Ok (Some g)
  | None => if error_if_not_found then Raise GroupDoesNotExistError
            else Ok None
  end.

(** Modelled from the spec: [get_snapshot(resource_id, snapshot_id)]
    returns a specific historical snapshot whatever the deletion state. *)
Definition get_snapshot (resource_id snapshot_id : Z) (s : db)
    : option PluginTaskParameterType.t :=
  find
    (fun p =>
       (PluginTaskParameterType.resource_id p =? resource_id)
       && (PluginTaskParameterType.resource_snapshot_id p
           =? snapshot_id))%bool
    (plugin_task_parameter_types s).

(** The key discipline of the tables: primary keys are unique and were
    handed out by the counters. *)
Record db_invariant (s : db) : Prop := mk_db_invariant {
  snapshot_ids_issued :
    Forall
      (fun p =>
         PluginTaskParameterType.resource_snapshot_id p
         < next_resource_snapshot_id s)
      (plugin_task_parameter_types s);
  resource_ids_issued :
    Forall (fun r => Resource.resource_id r < next_resource_id s)
      (resources s);
  lock_ids_issued :
    Forall (fun l => ResourceLock.resource_id l < next_resource_id s)
      (resource_locks s);
  snapshot_ids_unique :
    NoDup (map PluginTaskParameterType.resource_snapshot_id
             (plugin_task_parameter_types s));
  resource_ids_unique : NoDup (map Resource.resource_id (resources s))
}.

(** In the words of the specification: a plugin parameter type that is not
    deleted and whose latest snapshot has this name exists in the group. *)
Definition name_taken (s : db) (name : string) (group_id : Z) : Prop :=
  exists p r,
    In p (plugin_task_parameter_types s)
    /\ In r (resources s)
    /\ Resource.resource_id r = PluginTaskParameterType.resource_id p
    /\ PluginTaskParameterType.name p = name
    /\ Resource.group_id r = group_id
    /\ is_deleted s (Resource.resource_id r) = false
    /\ latest_snapshot_id s (Resource.resource_id r)
       = Some (PluginTaskParameterType.resource_snapshot_id p).

(** ** Service calls: a state and exception monad over the session *)

Definition session (A : Type) : Type := db -> result A * db.

Definition sret {A} (a : A) : session A := fun s => (Ok a, s).

Definition sraise {A} (e : exn) : session A := fun s => (Raise e, s).

Definition sbind {A B} (m : session A) (k : A -> session B) : session B :=
  fun s =>
    match m s with
    | (Ok a, s') => k a s'
    | (Raise e, s') => (Raise e, s')
    end.

(** A query reads the session and may raise. *)
Definition squery {A} (q : db -> result A) : session A := fun s => (q s, s).

(** An insertion returns the object it added. *)
Definition sadd {A} (f : db -> A * db) : session A :=
  fun s => let (a, s') := f s in (Ok a, s').

Definition supdate (f : db -> db) : session unit := fun s => (Ok tt, f s).

Declare Scope session_scope.
Delimit Scope session_scope with session.
Notation "x <- m ;; k" := (sbind m (fun x => k))
  (at level 61, m at next level, right associativity) : session_scope.
Notation "m ;;; k" := (sbind m (fun _ => k))
  (at level 61, right associativity) : session_scope.

(** ** [v1/plugin_parameter_types/service.py] *)

(** [db.session.scalars(stmt).first()] and [.all()]. *)
Definition scalars_first (rows : list plugin_parameter_type)
    : option plugin_parameter_type := hd_error rows.

Definition scalars_all (rows : list plugin_parameter_type)
    : list plugin_parameter_type := rows.

(** [select(func.count(...))...first()]: the number of rows; the engine
    always answers with a number. *)
Definition scalars_count (rows : list plugin_parameter_type) : option Z :=
  Some (Z.of_nat (List.length rows)).

Definition PluginParameterTypeNameService_get (name : string) (group_id : Z)
    (error_if_not_found : bool) (s : db)
    : result (option plugin_parameter_type) :=
  let stmt :=
    filter
      (fun pr : plugin_parameter_type =>
         let (p, r) := pr in
         String.eqb (PluginTaskParameterType.name p) name
         && (Resource.group_id r =? group_id)
         && negb (is_deleted s (Resource.resource_id r))
         && is_latest s p r)%bool
      (join_resource s) in
  match scalars_first stmt with
  | None =>
      if error_if_not_found then Raise PluginParameterTypeDoesNotExistError
      else Ok None
  | Some plugin_parameter_type => Ok (Some plugin_parameter_type)
  end.

Definition PluginParameterTypeIdService_get (plugin_parameter_type_id : Z)
    (error_if_not_found : bool) (s : db)
    : result (option plugin_parameter_type) :=
  let stmt :=
    filter
      (fun pr : plugin_parameter_type =>
         let (p, r) := pr in
         (PluginTaskParameterType.resource_id p =? plugin_parameter_type_id)
         && is_latest s p r
         && negb (is_deleted s (Resource.resource_id r)))%bool
      (join_resource s) in
  match scalars_first stmt with
  | None =>
      if error_if_not_found then Raise PluginParameterTypeDoesNotExistError
      else Ok None
  | Some plugin_parameter_type => Ok (Some plugin_parameter_type)
  end.

Section PluginParameterTypeServices.
(** [flask_login.current_user], by user id. *)
Variable current_user : Z.

Definition PluginParameterTypeService_create (name : string)
    (structure : pyval) (description : string) (group_id : Z)
    (commit : bool) : session plugin_parameter_type :=
  (existing <-
     squery (PluginParameterTypeNameService_get name group_id false) ;;
   match existing with
   | Some _ => sraise PluginParameterTypeAlreadyExistsError
   | None =>
       found <- squery (GroupIdService_get group_id true) ;;
       match found with
       | None => sraise GroupDoesNotExistError
       | Some group =>
           new_plugin_parameter_type <-
             sadd (add_resource_with_snapshot group name structure
                     description current_user) ;;
           (if commit then supdate session_commit else sret tt) ;;;
           sret new_plugin_parameter_type
       end
   end)%session.

Definition PluginParameterTypeIdService_modify
    (plugin_parameter_type_id : Z) (name : string) (structure : pyval)
    (description : string) (error_if_not_found commit : bool)
    : session (option plugin_parameter_type) :=
  (found <- squery (PluginParameterTypeIdService_get
                      plugin_parameter_type_id error_if_not_found) ;;
   match found with
   | None => sret None
   | Some plugin_parameter_type =>
       let group_id := Resource.group_id (snd plugin_parameter_type) in
       clash <-
         (if negb (String.eqb name
                     (PluginTaskParameterType.name
                        (fst plugin_parameter_type)))
          then squery (PluginParameterTypeNameService_get name group_id false)
          else sret None) ;;
       match clash with
       | Some _ => sraise PluginParameterTypeAlreadyExistsError
       | None =>
           new_plugin_parameter_type <-
             sadd (add_snapshot (snd plugin_parameter_type) name
                     structure description current_user) ;;
           (if commit then supdate session_commit else sret tt) ;;;
           sret (Some new_plugin_parameter_type)
       end
   end)%session.
End PluginParameterTypeServices.

Definition PluginParameterTypeIdService_delete (plugin_parameter_type_id : Z)
    : session (dict string pyval) :=
  (found <-
     squery (fun s =>
               Ok (find
                     (fun r =>
                        (Resource.resource_id r =? plugin_parameter_type_id)
                        && String.eqb (Resource.resource_type r) RESOURCE_TYPE
                        && negb (is_deleted s (Resource.resource_id r)))%bool
                     (resources s))) ;;
   match found with
   | None => sraise PluginParameterTypeDoesNotExistError
   | Some plugin_parameter_type_resource =>
       supdate (add_resource_lock "delete" plugin_parameter_type_resource) ;;;
       supdate session_commit ;;;
       sret [ ("status", PStr "Success");
              ("plugin_parameter_type_id", PInt plugin_parameter_type_id) ]
   end)%session.

(** The [where] clause shared by the two statements of
    [PluginParameterTypeService.get]: the optional group filter, resources
    that are not deleted, latest snapshots only. *)
Definition latest_plugin_parameter_types (group_id : option Z) (s : db)
    : list plugin_parameter_type :=
  let filters : list (Resource.t -> bool) :=
    match group_id with
    | Some g => [fun r => Resource.group_id r =? g]
    | None => []
    end in
  filter
    (fun pr : plugin_parameter_type =>
       let (p, r) := pr in
       forallb (fun f => f r) filters
       && negb (is_deleted s (Resource.resource_id r))
       && is_latest s p r)%bool
    (join_resource s).

Definition PluginParameterTypeService_get (group_id : option Z)
    (search_string : string) (page_index page_length : Z) (s : db)
    : result (list plugin_parameter_type * Z) :=
  if negb (String.eqb search_string "") then Raise SearchNotImplementedError
  else
    match scalars_count (latest_plugin_parameter_types group_id s) with
    | None => Raise BackendDatabaseError
    | Some total_num_plugin_parameter_types =>
        if total_num_plugin_parameter_types =? 0
        then Ok ([], total_num_plugin_parameter_types)
        else
          Ok (scalars_all
                (offset_limit page_index page_length
                   (latest_plugin_parameter_types group_id s)),
              total_num_plugin_parameter_types)
    end.

(** ** Listing a collection page by page *)

Fixpoint strip_prefix (prefix s : string) : option string :=
  match prefix, s with
  | EmptyString, _ => Some s
  | String a prefix', String b s' =>
      if Ascii.eqb a b then strip_prefix prefix' s' else None
  | String _ _, EmptyString => None
  end.

Fixpoint take_until (stop : ascii) (s : string) : string :=
  match s with
  | EmptyString => EmptyString
  | String c s' =>
      if Ascii.eqb c stop then EmptyString else String c (take_until stop s')
  end.

Definition envelope_data (envelope : dict string pyval) : list pyval :=
  match dict_get "data" envelope with
  | Some (PList l) => l
  | _ => []
  end.

Definition envelope_is_complete (envelope : dict string pyval) : option bool :=
  match dict_get "is_complete" envelope with
  | Some (PBool b) => Some b
  | _ => None
  end.


Section ListPages.
Variable V1_ROOT : string.
Variable build_fn : plugin_parameter_type -> pyval.

(** The index that a client reads from a paging link of a collection. *)
Definition paging_url_index (route_prefix url : string) : option Z :=
  match strip_prefix ("/" ++ V1_ROOT ++ "/" ++ route_prefix ++ "?index=") url
  with
  | Some rest =>
      option_map Z.of_int (NilEmpty.int_of_string (take_until "&" rest))
  | None => None
  end.

(** Modelled from the spec: the controller of the plugin parameter type
    collection is not among the sources. A list request hands the index
    and the page length to the service and wraps the page in the paging
    envelope. *)
Definition list_plugin_parameter_types (group_id : option Z)
    (index page_length : Z) (s : db) : result (dict string pyval) :=
  (found <- PluginParameterTypeService_get group_id "" index page_length s ;;
   let (plugin_parameter_types, total_num_plugin_parameter_types) := found in
   Ok (build_paging_envelope V1_ROOT PLUGIN_PARAMETER_TYPES build_fn
         plugin_parameter_types group_id (Some "") None index page_length
         total_num_plugin_parameter_types))%result.

(** A client that starts at [index] and follows the [next] links, taking
    the index of the next request from the link. [None]: the fuel ran out,
    a request raised, or a link carried no index. *)
Fixpoint follow_next_links (fuel : nat) (group_id : option Z)
    (page_length index : Z) (s : db) : option (list (dict string pyval)) :=
  match fuel with
  | O => None
  | S fuel' =>
      match list_plugin_parameter_types group_id index page_length s with
      | Raise _ => None
      | Ok envelope =>
          match dict_get "next" envelope with
          | None => Some [envelope]
          | Some (PStr next) =>
              match paging_url_index PLUGIN_PARAMETER_TYPES next with
              | Some next_index =>
                  option_map (cons envelope)
                    (follow_next_links fuel' group_id page_length next_index s)
              | None => None
              end
          | Some _ => None
          end
      end
  end.
End ListPages.

(** ** [v1/users/service.py]: passwords *)

(** The injected [PasswordService] ([v0/shared/password/service.py] is not
    among the sources): how a password is hashed and verified. *)
Record PasswordService : Type := mkPasswordService {
  verify : string -> string -> bool;
  hash : string -> string
}.

(** What the two ambient calls of the service return during one request:
    [datetime.datetime.now(tz=utc)] and [uuid.uuid4()]. *)
Record ambient : Type := mkambient {
  now : datetime;
  uuid4 : uuid
}.

Definition DAYS_TO_EXPIRE_PASSWORD_DEFAULT : Z := 365.

(** [datetime.timedelta(days=d)] in microseconds. *)
Definition timedelta_days (d : Z) : Z := d * 86400 * 1000000.

Section UserPasswordService.
Variable password_service : PasswordService.
Variable env : ambient.

Definition UserPasswordService_authenticate (password user_password : string)
    (expiration_date : datetime) (error_if_failed : bool) : result bool :=
  let current_timestamp := now env in
  let authenticated := verify password_service password user_password in
  if (negb authenticated && error_if_failed)%bool
  then Raise UserPasswordVerificationError
  else if expiration_date <? current_timestamp
       then Raise UserPasswordExpiredError
       else Ok authenticated.

(** [change] mutates the user object; the object after the call is
    returned next to the outcome. *)
Definition UserPasswordService_change (user : User.t)
    (current_password new_password confirm_new_password : string)
    (commit : bool) : result (dict string pyval) * User.t :=
  if negb (verify password_service current_password (User.password user))
  then (Raise UserPasswordChangeError, user)
  else if negb (String.eqb new_password confirm_new_password)
  then (Raise UserPasswordChangeError, user)
  else if verify password_service new_password (User.password user)
  then (Raise UserPasswordChangeSamePasswordError, user)
  else
    let timestamp := now env in
    let user :=
      User.mk (User.user_id user) (User.username user)
        (User.email_address user)
        (hash password_service new_password)
        (uuid4 env)
        (User.created_on user)
        timestamp
        (User.last_login_on user)
        (timestamp + timedelta_days DAYS_TO_EXPIRE_PASSWORD_DEFAULT) in
    (Ok [ ("status", PStr "Password Change Success");
          ("username", PStr (User.username user)) ],
     user).
End UserPasswordService.

(** ** Calling a Python function: binding arguments to parameters *)

(** An argument at a call site of [build_paging_envelope]: a plain value,
    a list of ORM objects, or a function on such objects. *)
Inductive pyarg (A : Type) : Type :=
| ArgVal (v : pyval)
| ArgRows (rows : list A)
| ArgFn (f : A -> pyval).

Arguments ArgVal {A} v.
Arguments ArgRows {A} rows.
Arguments ArgFn {A} f.

(** Positional arguments fill the parameters from the left. *)
Fixpoint bind_positional {V : Type} (params : list string) (args : list V)
    : dict string V :=
  match params, args with
  | p :: params', a :: args' => (p, a) :: bind_positional params' args'
  | _, _ => []
  end.

(** Keyword arguments: the name must be a parameter without a value. *)
Fixpoint bind_keywords {V : Type} (params : list string)
    (kwargs : list (string * V)) (bound : dict string V)
    : bind_error + dict string V :=
  match kwargs with
  | [] => inr bound
  | (k, v) :: kwargs' =>
      if negb (existsb (String.eqb k) params) then inl (UnexpectedKeyword k)
      else
        match dict_get k bound with
        | Some _ => inl (MultipleValues k)
        | None => bind_keywords params kwargs' (bound ++ [(k, v)])%list
        end
  end.

(** The binding of a call to a function whose parameters are all required,
    with the checks in the order of the interpreter: keywords, then too
    many positional arguments, then missing arguments. *)
Definition bind_arguments {V : Type} (params : list string) (args : list V)
    (kwargs : list (string * V)) : result (dict string V) :=
  match bind_keywords params kwargs (bind_positional params args) with
  | inl e => Raise (TypeError e)
  | inr bound =>
      if Nat.ltb (List.length params) (List.length args)
      then Raise (TypeError
                    (TooManyPositional (List.length params) (List.length args)))
      else
        match filter (fun p => match dict_get p bound with
                               | Some _ => false
                               | None => true
                               end) params with
        | [] => Ok bound
        | missing =>
            Raise (TypeError (MissingPositional missing))
        end
  end.

Definition build_paging_envelope_parameters : list string :=
  [ "route_prefix"; "build_fn"; "data"; "group_id"; "query"; "draft_type";
    "index"; "length"; "total_num_elements" ].

Definition as_str (v : pyval) : option string :=
  match v with PStr s => Some s | _ => None end.

Definition as_int (v : pyval) : option Z :=
  match v with PInt z => Some z | _ => None end.

Definition as_optional_int (v : pyval) : option (option Z) :=
  match v with PNone => Some None | PInt z => Some (Some z) | _ => None end.

Definition as_optional_str (v : pyval) : option (option string) :=
  match v with PNone => Some None | PStr s => Some (Some s) | _ => None end.

Section Calls.
Variable V1_ROOT : string.

(** A call of [build_paging_envelope] with positional and keyword
    arguments. Once the arguments
    are bound, values of the annotated types run the function; values of
    other types are outside this embedding ([NotModelled]). *)
Definition call_build_paging_envelope {A : Type} (args : list (pyarg A))
    (kwargs : list (string * pyarg A)) : result (dict string pyval) :=
  (bound <- bind_arguments build_paging_envelope_parameters args kwargs ;;
   match dict_get "route_prefix" bound, dict_get "build_fn" bound,
         dict_get "data" bound, dict_get "group_id" bound,
         dict_get "query" bound, dict_get "draft_type" bound,
         dict_get "index" bound, dict_get "length" bound,
         dict_get "total_num_elements" bound with
   | Some (ArgVal route_prefix), Some (ArgFn build_fn),
     Some (ArgRows data), Some (ArgVal group_id), Some (ArgVal query),
     Some (ArgVal draft_type), Some (ArgVal index), Some (ArgVal length),
     Some (ArgVal total_num_elements) =>
       match as_str route_prefix, as_optional_int group_id,
             as_optional_str query, as_optional_str draft_type,
             as_int index, as_int length, as_int total_num_elements with
       | Some route_prefix, Some group_id, Some query, Some draft_type,
         Some index, Some length, Some total_num_elements =>
           Ok (build_paging_envelope V1_ROOT route_prefix build_fn data
                 group_id query draft_type index length total_num_elements)
       | _, _, _, _, _, _, _ => Raise NotModelled
       end
   | _, _, _, _, _, _, _, _, _ => Raise NotModelled
   end)%result.

(** ** [v1/queues/controller.py] *)

(** [QueueEndpoint.get]; the injected [QueueService.get] is a parameter
    (its module is not among the sources). *)
Definition QueueEndpoint_get
    (queue_service_get :
       pyval -> pyval -> pyval -> result (list QueueDict.t * Z))
    (parsed_query_params : dict string pyval) : result (dict string pyval) :=
  (search_string <- dict_item "search" parsed_query_params ;;
   page_index <- dict_item "index" parsed_query_params ;;
   page_length <- dict_item "page_length" parsed_query_params ;;
   found <- queue_service_get search_string page_index page_length ;;
   let (queues, total_num_queues) := found in
   call_build_paging_envelope
     [ ArgVal (PStr "queues");
       ArgFn (build_queue V1_ROOT);
       ArgRows queues;
       ArgVal search_string;
       ArgVal page_index;
       ArgVal page_length;
       ArgVal (PInt total_num_queues) ]
     [])%result.
End Calls.

(** ** Sample data *)

(** A password service for examples: the hash is the password behind a
    fixed tag, verification hashes and compares. *)
Definition sample_password_service : PasswordService :=
  mkPasswordService
    (fun password hashed_password =>
       String.eqb ("hashed:" ++ password) hashed_password)
    (fun password => "hashed:" ++ password).

(** A request on day 200 that draws the identifier 77. *)
Definition sample_ambient : ambient :=
  mkambient (timedelta_days 200) 77%N.

(** A user whose password "supersecurepassword" expires on day 365. *)
Definition sample_user : User.t :=
  User.mk 1 "user1" "user1@example.org" "hashed:supersecurepassword" 5%N
    0 0 0 (timedelta_days 365).

Definition sample_user2 : User.t :=
  User.mk 2 "user2" "user2@example.org" "hashed:supersecurepassword" 6%N
    0 0 0 (timedelta_days 365).

(** The public group: two members, the first of them its manager. *)
Definition sample_group : Group.t :=
  Group.mk 1 "public" sample_user
    [ GroupMember.mk 1 sample_user true true false false;
      GroupMember.mk 2 sample_user2 true false false false ]
    [ GroupManager.mk 1 true true ]
    0 0.


(** The query parameters of [GET /v1/queues?index=0&pageLength=10] after
    schema validation, and a queue service with no queue to report. *)
Definition sample_queue_query : dict string pyval :=
  [ ("search", PStr ""); ("index", PInt 0); ("page_length", PInt 10) ].

Definition sample_queue_service_get
    (search_string page_index page_length : pyval)
    : result (list QueueDict.t * Z) :=
  Ok ([], 0).

(** A session with the public group and no resource yet, and the session
    after user 1 registered the types "integer" and "image_shape" in it. *)
Definition sample_db0 : db := mkdb [sample_group] [] [] [] 1 1.

Definition sample_db : db :=
  snd (PluginParameterTypeService_create 1 "image_shape" PNone
         "The shape of an image." 1 true
         (snd (PluginParameterTypeService_create 1 "integer" PNone
                 "A whole number." 1 true sample_db0))).

(** A response builder for examples: the identifying fields that
    [build_plugin_parameter_type] reports. *)
Definition sample_build_fn (x : plugin_parameter_type) : pyval :=
  PDict [ ("id", PInt (PluginTaskParameterType.resource_id (fst x)));
          ("snapshot_id",
           PInt (PluginTaskParameterType.resource_snapshot_id (fst x)));
          ("name", PStr (PluginTaskParameterType.name (fst x))) ].

(** ** What the services maintain *)

(** The version of a resource that the services read: a snapshot row and
    its resource row, the resource not deleted, the snapshot its latest. *)
Definition current_version (s : db) (p : PluginTaskParameterType.t)
    (r : Resource.t) : Prop :=
  In p (plugin_task_parameter_types s)
  /\ In r (resources s)
  /\ Resource.resource_id r = PluginTaskParameterType.resource_id p
  /\ is_deleted s (Resource.resource_id r) = false
  /\ latest_snapshot_id s (Resource.resource_id r)
     = Some (PluginTaskParameterType.resource_snapshot_id p).

(** At most one resource that is not deleted holds a name in a group. *)
Definition names_unique (s : db) : Prop :=
  forall p r p' r',
    current_version s p r -> current_version s p' r' ->
    PluginTaskParameterType.name p = PluginTaskParameterType.name p' ->
    Resource.group_id r = Resource.group_id r' ->
    Resource.resource_id r = Resource.resource_id r'.

(** Does a resource of this group pass the optional group filter of a
    listing? *)
Definition passes_group_filter (group_filter : option Z) (group_id : Z)
    : bool :=
  match group_filter with
  | Some g => group_id =? g
  | None => true
  end.

(** The tables of [s'] are those of [s] with rows added at the end; the
    groups are the same. *)
Definition extends (s s' : db) : Prop :=
  groups s' = groups s
  /\ (exists added, resources s' = (resources s ++ added)%list)
  /\ (exists added,
         plugin_task_parameter_types s'
         = (plugin_task_parameter_types s ++ added)%list)
  /\ (exists added, resource_locks s' = (resource_locks s ++ added)%list).

(** The session after the type "image_shape" (resource 2) was deleted. *)
Definition sample_db_deleted : db :=
  snd (PluginParameterTypeIdService_delete 2 sample_db).

(** The rows of a listing that are not versions of resource [id]. *)
Definition other_rows (id : Z) (rows : list plugin_parameter_type)
    : list plugin_parameter_type :=
  filter (fun row => negb (Resource.resource_id (snd row) =? id)) rows.

(** ** What a query string holds *)

(** How often the character [c] occurs in [s]. *)
Fixpoint count_char (c : ascii) (s : string) : nat :=
  match s with
  | EmptyString => 0%nat
  | String a s' => ((if Ascii.eqb c a then 1 else 0) + count_char c s')%nat
  end.

(** The characters that [quote_plus] can write: the ones it keeps, the
    [+] of a space and the [%] of an escape. *)
Definition written_by_quote_plus (c : ascii) : bool :=
  (always_safe c || Ascii.eqb c "+" || Ascii.eqb c "%")%bool.

Definition count_truthy (flags : list bool) : nat :=
  List.length (filter (fun b => b) flags).

(** ** [v1/shared/snapshots/controller.py] *)

Section SnapshotsController.
Variable V1_ROOT : string.
Variable A : Type.

(** [urllib.parse.unquote] on a [str]. *)
Variable unquote : string -> string.

(** [ResourceSnapshotsEndpoint.get] of the class that
    [generate_resource_snapshots_endpoint] builds for [route_prefix] and
    [build_fn]; the injected [ResourceSnapshotsService.get] is a parameter
    (its module is not among the sources). A [search] value that is not a
    [str] is outside this embedding. *)
Definition ResourceSnapshotsEndpoint_get (route_prefix : string)
    (build_fn : A -> pyval)
    (snapshots_service_get :
       Z -> pyval -> string -> pyval -> pyval -> result (list A * Z))
    (id : Z) (parsed_query_params : dict string pyval)
    : result (dict string pyval) :=
  (group_id <- dict_item "group_id" parsed_query_params ;;
   search <- dict_item "search" parsed_query_params ;;
   search_string <- match search with
                    | PStr s => Ok (unquote s)
                    | _ => Raise NotModelled
                    end ;;
   page_index <- dict_item "index" parsed_query_params ;;
   page_length <- dict_item "page_length" parsed_query_params ;;
   found <- snapshots_service_get id group_id search_string page_index
              page_length ;;
   let (snapshots, total_num_snapshots) := found in
   call_build_paging_envelope V1_ROOT
     [ ArgVal (PStr (route_prefix ++ "/" ++ str_of_int id ++ "/snapshots")) ]
     [ ("build_fn", ArgFn build_fn);
       ("data", ArgRows snapshots);
       ("group_id", ArgVal group_id);
       ("query", ArgVal (PStr search_string));
       ("index", ArgVal page_index);
       ("length", ArgVal page_length);
       ("total_num_elements", ArgVal (PInt total_num_snapshots)) ])%result.
End SnapshotsController.

(** ** [v1/users/service.py]: the current user *)

Section UserCurrentService.
Variable password_service : PasswordService.
Variable env : ambient.

(** The user repository ([dioptra.restapi.db.repository] is not among the
    sources): its state and what [user_repo.delete] does to it, raising
    or not. *)
Variable user_repo : Type.
Variable user_repo_delete : User.t -> user_repo -> result unit * user_repo.

(** [UserCurrentService.modify] assigns three attributes of
    [current_user]; the object after the call is returned. *)
Definition UserCurrentService_modify (current_user : User.t)
    (username email_address : string) (commit : bool) : User.t :=
  let current_timestamp := now env in
  User.mk (User.user_id current_user) username email_address
    (User.password current_user) (User.alternative_id current_user)
    (User.created_on current_user) current_timestamp
    (User.last_login_on current_user) (User.password_expire_on current_user).

(** [UserCurrentService.delete]: the value of [authenticate] is dropped,
    only its exceptions count. *)
Definition UserCurrentService_delete (current_user : User.t)
    (password : string) (repo : user_repo)
    : result (dict string pyval) * user_repo :=
  match UserPasswordService_authenticate password_service env password
          (User.password current_user) (User.password_expire_on current_user)
          true with
  | Raise e => (Raise e, repo)
  | Ok _ =>
      let user_id := User.user_id current_user in
      match user_repo_delete current_user repo with
      | (Raise e, repo') => (Raise e, repo')
      | (Ok _, repo') =>
          (Ok [ ("status", PStr "Success");
                ("id", PList [PInt user_id]) ],
           repo')
      end
  end.

(** [UserCurrentService.change_password]: [change] with its default
    [commit=True]. *)
Definition UserCurrentService_change_password (current_user : User.t)
    (current_password new_password confirm_new_password : string)
    : result (dict string pyval) * User.t :=
  UserPasswordService_change password_service env current_user
    current_password new_password confirm_new_password true.
End UserCurrentService.

(** A user repository for examples: the ids of the users it holds. *)
Definition sample_user_repo_delete (user : User.t) (repo : list Z)
    : result unit * list Z :=
  (Ok tt, filter (fun id => negb (id =? User.user_id user)) repo).

(** The request of [sample_ambient] and a later one on day 300. *)
Definition sample_ambient_later : ambient :=
  mkambient (timedelta_days 300) 78%N.

(** The index that a client reads from the link stored under [key] in a
    paging envelope. *)
Definition link_index (V1_ROOT route_prefix key : string)
    (envelope : dict string pyval) : option Z :=
  match dict_get key envelope with
  | Some (PStr url) => paging_url_index V1_ROOT route_prefix url
  | _ => None
  end.

(* ===================================================================== *)
(** * Part II: properties                                                  *)
(* ===================================================================== *)

(** ** Dictionaries *)

Section DictFacts.
Context {K V : Type} `{EqKey K}.







Lemma dict_keys_set_fresh (k : K) (v : V) (d : dict K V) :
  ~ In k (dict_keys d) ->
  dict_keys (dict_set k v d) = (dict_keys d ++ [k])%list.
Proof.
  induction d as [|[k' v'] d IH]; simpl; [reflexivity|].
  intros Hnin. destruct (keqb_spec k k') as [->|Hne]; simpl; [tauto|].
  f_equal. apply IH. tauto.
Qed.


End DictFacts.

(** ** Paging links and the paging envelope *)

(** The envelope is built along two tests: is there a previous page, is
    there a next page. *)
Ltac paging_cases index length total :=
  destruct (0 <? index); destruct (index + length <? total).

Section UrlFacts.
Variable V1_ROOT : string.

(** The filter part of the query never depends on the index: the
    dictionary starts with [index] and [pageLength], in this order. *)
Lemma paging_query_params_shape (group_id : option Z)
    (search draft_type : option string) (length : Z) :
  exists filters,
    forall index,
      paging_query_params group_id search draft_type index length
      = ("index", QInt index) :: ("pageLength", QInt length) :: filters.
Proof.
  unfold paging_query_params.
  destruct group_id as [g|]; cbn [truthy_int];
    [destruct (negb (g =? 0))|];
    (destruct search as [q|]; cbn [truthy_str];
       [destruct (negb (String.eqb q ""))|]);
    (destruct draft_type as [t|]; cbn [truthy_str];
       [destruct (negb (String.eqb t ""))|]);
    eexists; intros index; cbn; reflexivity.
Qed.


End UrlFacts.

(** ** Passwords *)

Section PasswordFacts.
Variable password_service : PasswordService.
Variable env : ambient.

(** C7, as amended: a failed verification with [error_if_failed] raises the
    verification error whatever the expiration date; in every other case an
    expiration date in the past raises the expiration error, also when the
    password verifies; otherwise the verification result is returned, so
    [True] is returned exactly for a verified password that has not
    expired. *)
Theorem authenticate_outcomes (password user_password : string)
    (expiration_date : datetime) (error_if_failed : bool) :
  let outcome :=
    UserPasswordService_authenticate password_service env password
      user_password expiration_date error_if_failed in
  let verified := verify password_service password user_password in
  (verified = false -> error_if_failed = true ->
   outcome = Raise UserPasswordVerificationError)
  /\ (verified = true \/ error_if_failed = false ->
      expiration_date < now env ->
      outcome = Raise UserPasswordExpiredError)
  /\ (verified = true \/ error_if_failed = false ->
      now env <= expiration_date ->
      outcome = Ok verified)
  /\ (outcome = Ok true <-> verified = true /\ now env <= expiration_date).
Proof.
  cbv zeta. unfold UserPasswordService_authenticate.
  destruct (verify password_service password user_password);
    destruct error_if_failed; cbn;
    destruct (Z.ltb_spec expiration_date (now env));
    repeat split; intros; try tauto; try lia; try discriminate;
    try (intuition (discriminate || lia)).
Qed.

(** C8, as amended: once the current password verifies, a confirmation that
    differs from the new password raises the change error; with a matching
    confirmation, a new password that verifies against the stored hash
    raises the same-password error; both leave the user as it was. In the
    remaining case the change succeeds: the new hash is stored, the
    alternative id is the freshly drawn UUID, and the password expires 365
    days after the time of the change. *)
Theorem change_password_outcomes (user : User.t)
    (current_password new_password confirm_new_password : string)
    (commit : bool) :
  verify password_service current_password (User.password user) = true ->
  let outcome :=
    UserPasswordService_change password_service env user current_password
      new_password confirm_new_password commit in
  (new_password <> confirm_new_password ->
   outcome = (Raise UserPasswordChangeError, user))
  /\ (new_password = confirm_new_password ->
      verify password_service new_password (User.password user) = true ->
      outcome = (Raise UserPasswordChangeSamePasswordError, user))
  /\ (new_password = confirm_new_password ->
      verify password_service new_password (User.password user) = false ->
      exists user',
        outcome
        = (Ok [ ("status", PStr "Password Change Success");
                ("username", PStr (User.username user)) ], user')
        /\ User.alternative_id user' = uuid4 env
        /\ User.password_expire_on user'
           = now env + 365 * 86400 * 1000000
        /\ User.password user' = hash password_service new_password
        /\ User.last_modified_on user' = now env
        /\ User.user_id user' = User.user_id user
        /\ User.username user' = User.username user
        /\ User.email_address user' = User.email_address user
        /\ User.created_on user' = User.created_on user
        /\ User.last_login_on user' = User.last_login_on user).
Proof.
  intros Hcurrent. cbv zeta. unfold UserPasswordService_change.
  rewrite Hcurrent. cbn [negb].
  destruct (String.eqb_spec new_password confirm_new_password) as [Heq|Hne];
    cbn [negb].
  - split; [intros Hdiff; contradiction|].
    split; intros _ Hnew; rewrite Hnew; [reflexivity|].
    eexists. split; [reflexivity|].
    cbn. unfold timedelta_days, DAYS_TO_EXPIRE_PASSWORD_DEFAULT.
    repeat split; reflexivity.
  - split; [reflexivity|]. split; intros Heq; contradiction.
Qed.
End PasswordFacts.

Lemma authenticate_outcomes_witness :
  UserPasswordService_authenticate sample_password_service sample_ambient
    "supersecurepassword" (User.password sample_user)
    (User.password_expire_on sample_user) true
  = Ok true.
Proof.
  apply (authenticate_outcomes sample_password_service sample_ambient
           "supersecurepassword" (User.password sample_user)
           (User.password_expire_on sample_user) true).
  split; [reflexivity | vm_compute; discriminate].
Defined.

(** C7 as first stated fails twice: an expired password does not raise the
    expiration error when the verification error comes first, and a
    verified password does not return [True] once it has expired. *)
Lemma authenticate_counterexample :
  (timedelta_days 100 < now sample_ambient
   /\ UserPasswordService_authenticate sample_password_service sample_ambient
        "wrong" (User.password sample_user) (timedelta_days 100) true
      <> Raise UserPasswordExpiredError)
  /\ (verify sample_password_service "supersecurepassword"
         (User.password sample_user) = true
      /\ UserPasswordService_authenticate sample_password_service
           sample_ambient "supersecurepassword" (User.password sample_user)
           (timedelta_days 100) false
         <> Ok true).
Proof. repeat split; vm_compute; discriminate. Qed.

Lemma change_password_outcomes_witness :
  UserPasswordService_change sample_password_service sample_ambient
    sample_user "supersecurepassword" "supersecurepassword"
    "supersecurepassword" true
  = (Raise UserPasswordChangeSamePasswordError, sample_user).
Proof.
  apply (change_password_outcomes sample_password_service sample_ambient
           sample_user "supersecurepassword" "supersecurepassword"
           "supersecurepassword" true);
    reflexivity.
Defined.

(** C8 as first stated fails: the new password verifies against the stored
    hash, yet a confirmation that differs makes [change] raise the change
    error, not the same-password error. *)
Lemma change_password_counterexample :
  verify sample_password_service "supersecurepassword"
    (User.password sample_user) = true
  /\ fst (UserPasswordService_change sample_password_service sample_ambient
            sample_user "supersecurepassword" "supersecurepassword"
            "typo" true)
     = Raise UserPasswordChangeError
  /\ fst (UserPasswordService_change sample_password_service sample_ambient
            sample_user "supersecurepassword" "supersecurepassword"
            "typo" true)
     <> Raise UserPasswordChangeSamePasswordError.
Proof. repeat split. discriminate. Qed.

(** ** [build_group] *)



Section BuildGroupFacts.
Variable V1_ROOT : string.
Variable group : Group.t.








End BuildGroupFacts.



(** ** The queue collection endpoint *)

Section QueueEndpointFacts.
Variable V1_ROOT : string.

(** Where the seven positional arguments of the controller land among the
    nine parameters of [build_paging_envelope]: the search string is bound
    to [group_id], the page index to [query], the page length to
    [draft_type] and the total to [index]; [length] and
    [total_num_elements] receive nothing. *)
Lemma QueueEndpoint_get_binding (queues : list QueueDict.t)
    (search_string page_index page_length : pyval) (total_num_queues : Z) :
  bind_positional build_paging_envelope_parameters
    [ ArgVal (PStr "queues"); ArgFn (build_queue V1_ROOT); ArgRows queues;
      ArgVal search_string; ArgVal page_index; ArgVal page_length;
      ArgVal (PInt total_num_queues) ]
  = [ ("route_prefix", ArgVal (PStr "queues"));
      ("build_fn", ArgFn (build_queue V1_ROOT));
      ("data", ArgRows queues);
      ("group_id", ArgVal search_string);
      ("query", ArgVal page_index);
      ("draft_type", ArgVal page_length);
      ("index", ArgVal (PInt total_num_queues)) ].
Proof. reflexivity. Qed.

(** C6 on the code: [QueueEndpoint.get] never returns a paging envelope.
    When the query parameters are present and the queue service answers,
    its call of [build_paging_envelope] raises [TypeError]: two required
    parameters, [length] and [total_num_elements], are left without an
    argument. *)
Theorem QueueEndpoint_get_raises
    (queue_service_get :
       pyval -> pyval -> pyval -> result (list QueueDict.t * Z))
    (parsed_query_params : dict string pyval) :
  (forall envelope,
      QueueEndpoint_get V1_ROOT queue_service_get parsed_query_params
      <> Ok envelope)
  /\ (forall search_string page_index page_length queues total_num_queues,
        dict_get "search" parsed_query_params = Some search_string ->
        dict_get "index" parsed_query_params = Some page_index ->
        dict_get "page_length" parsed_query_params = Some page_length ->
        queue_service_get search_string page_index page_length
        = Ok (queues, total_num_queues) ->
        QueueEndpoint_get V1_ROOT queue_service_get parsed_query_params
        = Raise (TypeError
                   (MissingPositional ["length"; "total_num_elements"]))).
Proof.
  split.
  - intros envelope. unfold QueueEndpoint_get, dict_item.
    destruct (dict_get "search" parsed_query_params) as [a|];
      [|discriminate].
    destruct (dict_get "index" parsed_query_params) as [b|];
      [|discriminate].
    destruct (dict_get "page_length" parsed_query_params) as [c|];
      [|discriminate].
    cbn [bind_result].
    destruct (queue_service_get a b c) as [[queues total]|e];
      [|discriminate].
    cbn. discriminate.
  - intros a b c queues total Hs Hi Hl Hsvc.
    unfold QueueEndpoint_get, dict_item.
    rewrite Hs, Hi, Hl. cbn [bind_result]. rewrite Hsvc. reflexivity.
Qed.
End QueueEndpointFacts.

Lemma QueueEndpoint_get_raises_witness :
  QueueEndpoint_get "api/v1" sample_queue_service_get sample_queue_query
  = Raise (TypeError (MissingPositional ["length"; "total_num_elements"])).
Proof.
  apply (proj2 (QueueEndpoint_get_raises "api/v1" sample_queue_service_get
                  sample_queue_query)
           (PStr "") (PInt 0) (PInt 10) [] 0);
    reflexivity.
Defined.

(** ** Lists and tables *)

Lemma filter_all_false {A : Type} (f : A -> bool) (l : list A) :
  (forall x, In x l -> f x = false) -> filter f l = [].
Proof.
  induction l as [|x l IH]; intros Hall; simpl; [reflexivity|].
  rewrite (Hall x) by now left. apply IH. intros y Hy. apply Hall. now right.
Qed.

Lemma filter_all_true {A : Type} (f : A -> bool) (l : list A) :
  (forall x, In x l -> f x = true) -> filter f l = l.
Proof.
  induction l as [|x l IH]; intros Hall; simpl; [reflexivity|].
  rewrite (Hall x) by now left. f_equal. apply IH. intros y Hy.
  apply Hall. now right.
Qed.

Lemma find_all_false {A : Type} (f : A -> bool) (l : list A) :
  (forall x, In x l -> f x = false) -> find f l = None.
Proof.
  induction l as [|x l IH]; intros Hall; simpl; [reflexivity|].
  rewrite (Hall x) by now left. apply IH. intros y Hy. apply Hall. now right.
Qed.

Lemma find_app_some {A : Type} (f : A -> bool) (l1 l2 : list A) (x : A) :
  find f l1 = Some x -> find f (l1 ++ l2) = Some x.
Proof.
  induction l1 as [|y l1 IH]; simpl; [discriminate|].
  destruct (f y); [trivial | exact IH].
Qed.

Lemma find_app_none {A : Type} (f : A -> bool) (l1 l2 : list A) :
  find f l1 = None -> find f (l1 ++ l2) = find f l2.
Proof.
  induction l1 as [|y l1 IH]; simpl; [reflexivity|].
  destruct (f y); [discriminate | exact IH].
Qed.

(** In a table with unique keys, the rows with the key of a row of the
    table are that row alone. *)
Lemma filter_unique_key {A : Type} (key : A -> Z) (l : list A) (x : A) :
  NoDup (map key l) -> In x l ->
  filter (fun y => key y =? key x) l = [x].
Proof.
  induction l as [|y l IH]; simpl; intros Hnd Hin; [contradiction|].
  inversion Hnd as [|? ? Hnotin Hnd']; subst.
  destruct Hin as [->|Hin].
  - rewrite Z.eqb_refl. f_equal. apply filter_all_false.
    intros z Hz. apply Z.eqb_neq. intros Heq. apply Hnotin.
    rewrite <- Heq. now apply in_map.
  - destruct (Z.eqb_spec (key y) (key x)) as [Heq|Hne].
    + exfalso. apply Hnotin. rewrite Heq. now apply in_map.
    + now apply IH.
Qed.

Lemma find_unique_key {A : Type} (key : A -> Z) (f : A -> bool)
    (l : list A) (x : A) :
  NoDup (map key l) -> In x l -> f x = true ->
  (forall y, In y l -> f y = true -> key y = key x) ->
  find f l = Some x.
Proof.
  induction l as [|y l IH]; simpl; intros Hnd Hin Hfx Hkey; [contradiction|].
  inversion Hnd as [|? ? Hnotin Hnd']; subst.
  destruct Hin as [->|Hin]; [now rewrite Hfx|].
  destruct (f y) eqn:Hfy.
  - exfalso. apply Hnotin. rewrite (Hkey y) by auto. now apply in_map.
  - apply IH; auto.
Qed.

Lemma NoDup_flat_map {A B : Type} (f : A -> list B) (l : list A) :
  NoDup l ->
  (forall x, In x l -> NoDup (f x)) ->
  (forall x y z, In x l -> In y l -> In z (f x) -> In z (f y) -> x = y) ->
  NoDup (flat_map f l).
Proof.
  induction l as [|x l IH]; simpl; intros Hnd Hinner Hdisj; [constructor|].
  inversion Hnd as [|? ? Hnotin Hnd']; subst.
  apply NoDup_app.
  - apply Hinner. now left.
  - apply IH; auto. intros a b z Ha Hb. apply Hdisj; now right.
  - intros z Hz Hz'. apply in_flat_map in Hz' as [y [Hy Hzy]].
    assert (x = y) by (apply (Hdisj x y z); auto; now left).
    subst y. contradiction.
Qed.

Lemma NoDup_map_pair {A B : Type} (a : A) (l : list B) :
  NoDup l -> NoDup (map (pair a) l).
Proof.
  induction 1 as [|x l Hnotin Hnd IH]; simpl; constructor; [|assumption].
  intros Hin. apply in_map_iff in Hin as [y [Heq Hy]].
  injection Heq as ->. contradiction.
Qed.

(** The rows of the join: a snapshot and the resource with its key. *)
Lemma in_join_resource (s : db) (p : PluginTaskParameterType.t)
    (r : Resource.t) :
  In (p, r) (join_resource s)
  <-> In p (plugin_task_parameter_types s)
      /\ In r (resources s)
      /\ Resource.resource_id r = PluginTaskParameterType.resource_id p.
Proof.
  unfold join_resource. rewrite in_flat_map. split.
  - intros [p' [Hp Hin]]. apply in_map_iff in Hin as [r' [Heq Hr]].
    injection Heq as -> ->. apply filter_In in Hr as [Hr Hid].
    repeat split; auto. now apply Z.eqb_eq.
  - intros [Hp [Hr Hid]]. exists p. split; [assumption|].
    apply in_map. apply filter_In. split; [assumption|]. now apply Z.eqb_eq.
Qed.

Lemma NoDup_join_resource (s : db) :
  db_invariant s -> NoDup (join_resource s).
Proof.
  intros [_ _ _ Hsnap Hres]. unfold join_resource. apply NoDup_flat_map.
  - eapply NoDup_map_inv; eassumption.
  - intros p _. apply NoDup_map_pair.
    apply NoDup_filter. eapply NoDup_map_inv; eassumption.
  - intros p p' z _ _ Hz Hz'.
    apply in_map_iff in Hz as [r [<- _]].
    apply in_map_iff in Hz' as [r' [Heq _]]. now injection Heq.
Qed.

(** ** Queries on the tables *)

Lemma hd_error_filter_unique {A : Type} (f : A -> bool) (l : list A) (x : A) :
  In x l -> f x = true ->
  (forall y, In y l -> f y = true -> y = x) ->
  hd_error (filter f l) = Some x.
Proof.
  induction l as [|y l IH]; simpl; intros Hin Hfx Huniq; [contradiction|].
  destruct (f y) eqn:Hfy.
  - simpl. f_equal. apply Huniq; auto.
  - destruct Hin as [->|Hin]; [congruence|]. apply IH; auto.
Qed.

Lemma hd_error_filter_some {A : Type} (f : A -> bool) (l : list A) (x : A) :
  hd_error (filter f l) = Some x -> In x l /\ f x = true.
Proof.
  intros Hhd. apply filter_In.
  destruct (filter f l) as [|y l']; [discriminate|].
  injection Hhd as ->. now left.
Qed.

Lemma hd_error_filter_exists {A : Type} (f : A -> bool) (l : list A) (x : A) :
  In x l -> f x = true -> exists y, hd_error (filter f l) = Some y.
Proof.
  intros Hin Hfx.
  assert (Hx : In x (filter f l)) by (apply filter_In; auto).
  destruct (filter f l) as [|y l']; [contradiction|]. now exists y.
Qed.

Lemma is_latest_iff (s : db) (p : PluginTaskParameterType.t) (r : Resource.t) :
  is_latest s p r = true
  <-> latest_snapshot_id s (Resource.resource_id r)
      = Some (PluginTaskParameterType.resource_snapshot_id p).
Proof.
  unfold is_latest.
  destruct (latest_snapshot_id s (Resource.resource_id r)) as [i|].
  - rewrite Z.eqb_eq. split; congruence.
  - split; discriminate.
Qed.

(** The lookup by name finds a plugin parameter type exactly when the name
    is taken in the group. *)
Lemma get_by_name_taken (s : db) (name : string) (group_id : Z)
    (error_if_not_found : bool) :
  name_taken s name group_id ->
  exists found,
    PluginParameterTypeNameService_get name group_id error_if_not_found s
    = Ok (Some found).
Proof.
  intros [p [r [Hp [Hr [Hid [Hname [Hgroup [Hlive Hlatest]]]]]]]].
  unfold PluginParameterTypeNameService_get, scalars_first.
  match goal with
  | |- context [hd_error (filter ?f ?l)] =>
      destruct (@hd_error_filter_exists _ f l (p, r)) as [found Hfound]
  end.
  - now apply in_join_resource.
  - cbn. rewrite Hname, String.eqb_refl, Hgroup, Z.eqb_refl, Hlive.
    cbn. now apply is_latest_iff.
  - exists found. now rewrite Hfound.
Qed.

Lemma get_by_name_free (s : db) (name : string) (group_id : Z) :
  ~ name_taken s name group_id ->
  PluginParameterTypeNameService_get name group_id false s = Ok None.
Proof.
  intros Hfree. unfold PluginParameterTypeNameService_get, scalars_first.
  rewrite filter_all_false; [reflexivity|].
  intros [p r] Hin. apply in_join_resource in Hin as [Hp [Hr Hid]].
  destruct (String.eqb_spec (PluginTaskParameterType.name p) name)
    as [Hname|]; [|reflexivity].
  destruct (Z.eqb_spec (Resource.group_id r) group_id) as [Hgroup|];
    [|reflexivity].
  destruct (is_deleted s (Resource.resource_id r)) eqn:Hlive; [reflexivity|].
  destruct (is_latest s p r) eqn:Hlatest; [|reflexivity].
  exfalso. apply Hfree. exists p, r. apply is_latest_iff in Hlatest.
  repeat split; assumption.
Qed.

(** What a successful lookup by id says about the tables. *)
Lemma get_by_id_found (s : db) (id : Z) (error_if_not_found : bool)
    (p : PluginTaskParameterType.t) (r : Resource.t) :
  PluginParameterTypeIdService_get id error_if_not_found s = Ok (Some (p, r)) ->
  In p (plugin_task_parameter_types s)
  /\ In r (resources s)
  /\ Resource.resource_id r = id
  /\ PluginTaskParameterType.resource_id p = id
  /\ latest_snapshot_id s id
     = Some (PluginTaskParameterType.resource_snapshot_id p)
  /\ is_deleted s id = false.
Proof.
  unfold PluginParameterTypeIdService_get, scalars_first.
  match goal with
  | |- context [hd_error (filter ?f ?l)] =>
      destruct (hd_error (filter f l)) as [[p' r']|] eqn:Hhd
  end.
  - intros Heq. injection Heq as -> ->.
    apply hd_error_filter_some in Hhd as [Hin Hcond].
    apply in_join_resource in Hin as [Hp [Hr Hid]].
    apply andb_prop in Hcond as [Hcond Hlive].
    apply andb_prop in Hcond as [Hpid Hlatest].
    apply Z.eqb_eq in Hpid. apply is_latest_iff in Hlatest.
    apply negb_true_iff in Hlive.
    assert (Hrid : Resource.resource_id r = id) by congruence.
    rewrite Hrid in *. repeat split; assumption.
  - destruct error_if_not_found; discriminate.
Qed.

(** The lookup by id returns a row of the join that passes its [where]
    clause as soon as no other row does. *)
Lemma get_by_id_unique (s : db) (id : Z) (error_if_not_found : bool)
    (p : PluginTaskParameterType.t) (r : Resource.t) :
  In p (plugin_task_parameter_types s) ->
  In r (resources s) ->
  Resource.resource_id r = id ->
  PluginTaskParameterType.resource_id p = id ->
  latest_snapshot_id s id
  = Some (PluginTaskParameterType.resource_snapshot_id p) ->
  is_deleted s id = false ->
  (forall p', In p' (plugin_task_parameter_types s) ->
              PluginTaskParameterType.resource_snapshot_id p'
              = PluginTaskParameterType.resource_snapshot_id p ->
              p' = p) ->
  (forall r', In r' (resources s) -> Resource.resource_id r' = id -> r' = r) ->
  PluginParameterTypeIdService_get id error_if_not_found s = Ok (Some (p, r)).
Proof.
  intros Hp Hr Hrid Hpid Hlatest Hlive Hp_uniq Hr_uniq.
  unfold PluginParameterTypeIdService_get, scalars_first.
  erewrite hd_error_filter_unique; [reflexivity| | |].
  - apply in_join_resource. repeat split; auto. congruence.
  - cbn. rewrite Hpid, Z.eqb_refl, Hrid, Hlive. cbn.
    rewrite andb_true_r. apply is_latest_iff. now rewrite Hrid.
  - intros [p' r'] Hin Hcond.
    apply in_join_resource in Hin as [Hp' [Hr' Hid']].
    apply andb_prop in Hcond as [Hcond _].
    apply andb_prop in Hcond as [Hpid' Hlatest'].
    apply Z.eqb_eq in Hpid'. apply is_latest_iff in Hlatest'.
    assert (Hrid' : Resource.resource_id r' = id) by congruence.
    rewrite Hrid' in Hlatest'.
    f_equal; [apply Hp_uniq | apply Hr_uniq]; auto. congruence.
Qed.

(** ** Deleting a plugin parameter type *)

Lemma is_deleted_add_resource_lock (s : db) (r : Resource.t) (rid : Z) :
  is_deleted (add_resource_lock "delete" r s) rid
  = (is_deleted s rid || (Resource.resource_id r =? rid))%bool.
Proof.
  unfold is_deleted, add_resource_lock. cbn [resource_locks].
  rewrite existsb_app. cbn. now rewrite andb_true_r, orb_false_r.
Qed.

(** A deleted resource is invisible to the lookup by id. *)
Lemma get_by_id_deleted (s : db) (id : Z) (error_if_not_found : bool) :
  is_deleted s id = true ->
  PluginParameterTypeIdService_get id error_if_not_found s
  = if error_if_not_found then Raise PluginParameterTypeDoesNotExistError
    else Ok None.
Proof.
  intros Hdel. unfold PluginParameterTypeIdService_get.
  rewrite filter_all_false; [reflexivity|].
  intros [p r] Hin. apply in_join_resource in Hin as [_ [_ Hid]].
  destruct (Z.eqb_spec (PluginTaskParameterType.resource_id p) id)
    as [Heq|Hne]; [|reflexivity].
  rewrite Hid, Heq, Hdel. cbn. apply andb_false_r.
Qed.

(** C3: deleting a plugin parameter type that is not deleted succeeds and
    appends a "delete" lock for it; afterwards the lookup by id raises
    [DoesNotExist] (and answers [None] when asked not to raise), a second
    delete raises [DoesNotExist], and the snapshot table is untouched, so
    every snapshot is still found by its snapshot id. *)
Theorem delete_then_get_and_delete_again (s : db) (r : Resource.t) :
  In r (resources s) ->
  Resource.resource_type r = RESOURCE_TYPE ->
  is_deleted s (Resource.resource_id r) = false ->
  let id := Resource.resource_id r in
  exists s',
    PluginParameterTypeIdService_delete id s
    = (Ok [ ("status", PStr "Success");
            ("plugin_parameter_type_id", PInt id) ], s')
    /\ resource_locks s'
       = (resource_locks s ++ [ResourceLock.mk id "delete"])%list
    /\ is_deleted s' id = true
    /\ PluginParameterTypeIdService_get id true s'
       = Raise PluginParameterTypeDoesNotExistError
    /\ PluginParameterTypeIdService_get id false s' = Ok None
    /\ PluginParameterTypeIdService_delete id s'
       = (Raise PluginParameterTypeDoesNotExistError, s')
    /\ plugin_task_parameter_types s' = plugin_task_parameter_types s
    /\ resources s' = resources s
    /\ forall snapshot_id,
         get_snapshot id snapshot_id s' = get_snapshot id snapshot_id s.
Proof.
  intros Hin Htype Hlive id.
  unfold PluginParameterTypeIdService_delete at 1.
  unfold sbind, squery, supdate, sret, sraise.
  destruct (find
              (fun r0 =>
                 (Resource.resource_id r0 =? id)
                 && String.eqb (Resource.resource_type r0) RESOURCE_TYPE
                 && negb (is_deleted s (Resource.resource_id r0)))%bool
              (resources s)) as [found|] eqn:Hfind.
  - apply find_some in Hfind as [Hfound Hcond].
    apply andb_prop in Hcond as [Hcond _].
    apply andb_prop in Hcond as [Hid _]. apply Z.eqb_eq in Hid.
    set (s' := session_commit (add_resource_lock "delete" found s)).
    assert (Hdel : is_deleted s' id = true).
    { unfold s', session_commit. rewrite is_deleted_add_resource_lock.
      rewrite Hid, Z.eqb_refl. apply orb_true_r. }
    exists s'. split; [reflexivity|].
    split;
      [unfold s', session_commit, add_resource_lock; cbn; now rewrite Hid|].
    split; [exact Hdel|].
    split; [now apply get_by_id_deleted|].
    split; [now apply (get_by_id_deleted s' id false)|].
    split; [|repeat split].
    unfold PluginParameterTypeIdService_delete.
    unfold sbind, squery, sraise.
    rewrite find_all_false; [reflexivity|].
    intros r0 _.
    destruct (Z.eqb_spec (Resource.resource_id r0) id) as [Heq|Hne];
      [|reflexivity].
    rewrite Heq, Hdel. cbn. apply andb_false_r.
  - exfalso. apply (find_none _ _ Hfind) in Hin. fold id in Hin.
    unfold id in Hin. rewrite Z.eqb_refl, Htype, Hlive in Hin.
    cbn in Hin. discriminate.
Qed.

Lemma delete_then_get_and_delete_again_witness :
  exists s',
    PluginParameterTypeIdService_delete 2 sample_db
    = (Ok [ ("status", PStr "Success");
            ("plugin_parameter_type_id", PInt 2) ], s')
    /\ PluginParameterTypeIdService_get 2 true s'
       = Raise PluginParameterTypeDoesNotExistError
    /\ PluginParameterTypeIdService_delete 2 s'
       = (Raise PluginParameterTypeDoesNotExistError, s').
Proof.
  destruct (delete_then_get_and_delete_again sample_db
              (Resource.mk 2 RESOURCE_TYPE 1))
    as [s' [Hdelete [_ [_ [Hget [_ [Hagain _]]]]]]].
  - vm_compute. auto.
  - reflexivity.
  - reflexivity.
  - exists s'. repeat split; assumption.
Defined.

(** ** Inserting rows *)

Lemma latest_snapshot_id_append (s s' : db) (p : PluginTaskParameterType.t)
    (rid : Z) :
  plugin_task_parameter_types s'
  = (plugin_task_parameter_types s ++ [p])%list ->
  latest_snapshot_id s' rid
  = if PluginTaskParameterType.resource_id p =? rid
    then Some (PluginTaskParameterType.resource_snapshot_id p)
    else latest_snapshot_id s rid.
Proof.
  intros Happ. unfold latest_snapshot_id. rewrite Happ, rev_app_distr. cbn.
  now destruct (PluginTaskParameterType.resource_id p =? rid).
Qed.

Lemma NoDup_map_snoc {A : Type} (key : A -> Z) (l : list A) (x : A) :
  Forall (fun y => key y < key x) l ->
  NoDup (map key l) -> NoDup (map key (l ++ [x])).
Proof.
  intros Hlt Hnd. rewrite map_app. apply NoDup_app; [assumption| |].
  - repeat constructor. simpl. tauto.
  - intros k Hk [<-|[]]. apply in_map_iff in Hk as [y [Heq Hy]].
    rewrite Forall_forall in Hlt. specialize (Hlt y Hy). lia.
Qed.

Lemma Forall_lt_snoc {A : Type} (key : A -> Z) (l : list A) (x : A) (n : Z) :
  Forall (fun y => key y < n) l -> key x = n ->
  Forall (fun y => key y < n + 1) (l ++ [x]).
Proof.
  intros Hlt Hx. apply Forall_app. split.
  - eapply Forall_impl; [|exact Hlt]. cbn. intros; lia.
  - repeat constructor. lia.
Qed.

Lemma Forall_lt_succ {A : Type} (key : A -> Z) (l : list A) (n : Z) :
  Forall (fun y => key y < n) l -> Forall (fun y => key y < n + 1) l.
Proof. intros Hlt. eapply Forall_impl; [|exact Hlt]. cbn. intros; lia. Qed.

Lemma db_invariant_empty : db_invariant empty_db.
Proof. constructor; cbn; constructor. Qed.

Lemma add_snapshot_invariant (r : Resource.t) (name : string)
    (structure : pyval) (description : string) (creator : Z) (s : db) :
  db_invariant s ->
  db_invariant (snd (add_snapshot r name structure description creator s)).
Proof.
  intros [Hsnap Hres Hlock Hsnap_u Hres_u]. constructor; cbn; try assumption.
  - now apply Forall_lt_snoc.
  - now apply NoDup_map_snoc.
Qed.

Lemma add_resource_with_snapshot_invariant (group : Group.t) (name : string)
    (structure : pyval) (description : string) (creator : Z) (s : db) :
  db_invariant s ->
  db_invariant
    (snd (add_resource_with_snapshot group name structure description
            creator s)).
Proof.
  intros [Hsnap Hres Hlock Hsnap_u Hres_u]. constructor; cbn.
  - now apply Forall_lt_snoc.
  - now apply Forall_lt_snoc.
  - now apply Forall_lt_succ.
  - now apply NoDup_map_snoc.
  - now apply NoDup_map_snoc.
Qed.

Lemma add_resource_lock_invariant (kind : string) (r : Resource.t) (s : db) :
  db_invariant s -> In r (resources s) ->
  db_invariant (add_resource_lock kind r s).
Proof.
  intros [Hsnap Hres Hlock Hsnap_u Hres_u] Hin.
  constructor; cbn; try assumption.
  apply Forall_app. split; [assumption|]. repeat constructor. cbn.
  rewrite Forall_forall in Hres. now apply Hres.
Qed.

Lemma is_deleted_issued (s : db) (rid : Z) :
  db_invariant s -> next_resource_id s <= rid -> is_deleted s rid = false.
Proof.
  intros [_ _ Hlock _ _] Hge. unfold is_deleted.
  apply not_true_is_false. intros Hex.
  apply existsb_exists in Hex as [l [Hl Hcond]].
  apply andb_prop in Hcond as [Hid _]. apply Z.eqb_eq in Hid.
  rewrite Forall_forall in Hlock. specialize (Hlock l Hl). lia.
Qed.

(** ** Creating a plugin parameter type *)

(** C2: when the name is taken in the group by a plugin parameter type that
    is not deleted, [create] raises [AlreadyExists] and the session is the
    one it started from; when the name is free, [create] inserts a new
    resource of the group and its first snapshot, both with fresh keys,
    and the lookup by id then returns that snapshot. *)
Theorem create_name_unique_in_group (current_user : Z) (s : db)
    (name : string) (structure : pyval) (description : string)
    (group_id : Z) (commit : bool) :
  (name_taken s name group_id ->
   PluginParameterTypeService_create current_user name structure description
     group_id commit s
   = (Raise PluginParameterTypeAlreadyExistsError, s))
  /\ (~ name_taken s name group_id ->
      (exists group,
          In group (groups s) /\ Group.group_id group = group_id) ->
      let resource :=
        Resource.mk (next_resource_id s) RESOURCE_TYPE group_id in
      let snapshot :=
        PluginTaskParameterType.mk (next_resource_snapshot_id s)
          (next_resource_id s) name structure description current_user in
      exists s',
        PluginParameterTypeService_create current_user name structure
          description group_id commit s
        = (Ok (snapshot, resource), s')
        /\ resources s' = (resources s ++ [resource])%list
        /\ plugin_task_parameter_types s'
           = (plugin_task_parameter_types s ++ [snapshot])%list
        /\ resource_locks s' = resource_locks s
        /\ groups s' = groups s
        /\ (db_invariant s ->
            db_invariant s'
            /\ name_taken s' name group_id
            /\ forall error_if_not_found,
                 PluginParameterTypeIdService_get (next_resource_id s)
                   error_if_not_found s'
                 = Ok (Some (snapshot, resource)))).
Proof.
  split.
  - intros Htaken.
    destruct (get_by_name_taken false Htaken) as [found Hfound].
    unfold PluginParameterTypeService_create, sbind, squery.
    now rewrite Hfound.
  - intros Hfree [group [Hgroup Hgid]] resource snapshot.
    unfold PluginParameterTypeService_create, sbind, squery.
    rewrite (get_by_name_free Hfree).
    unfold GroupIdService_get.
    destruct (find (fun g => Group.group_id g =? group_id) (groups s))
      as [found|] eqn:Hfind.
    + apply find_some in Hfind as [_ Hid]. apply Z.eqb_eq in Hid.
      unfold sadd, add_resource_with_snapshot. rewrite Hid.
      fold resource. cbn [Resource.resource_id resource]. fold snapshot.
      set (s' := mkdb (groups s) (resources s ++ [resource])
                   (plugin_task_parameter_types s ++ [snapshot])
                   (resource_locks s) (next_resource_id s + 1)
                   (next_resource_snapshot_id s + 1)).
      exists s'. split; [now destruct commit|].
      repeat (split; [reflexivity|]).
      intros Hinv.
      assert (Hinv' : db_invariant s').
      { generalize (add_resource_with_snapshot_invariant found name
                      structure description current_user Hinv).
        unfold add_resource_with_snapshot. rewrite Hid. exact (fun H => H). }
      assert (Hlatest : latest_snapshot_id s' (next_resource_id s)
                        = Some (next_resource_snapshot_id s)).
      { rewrite (latest_snapshot_id_append s s' snapshot _ eq_refl).
        cbn. now rewrite Z.eqb_refl. }
      assert (Hlive : is_deleted s' (next_resource_id s) = false).
      { change (is_deleted s' (next_resource_id s))
          with (is_deleted s (next_resource_id s)).
        apply is_deleted_issued; [assumption | lia]. }
      destruct Hinv as [Hsnap Hres _ _ _].
      rewrite Forall_forall in Hsnap, Hres.
      split; [exact Hinv'|]. split.
      * exists snapshot, resource. cbn.
        repeat split; try (apply in_or_app; right; now left); assumption.
      * intros error_if_not_found. apply get_by_id_unique; cbn;
          try reflexivity; try assumption;
          try (apply in_or_app; right; now left).
        -- intros p' Hp' Hsid. apply in_app_or in Hp' as [Hold|[<-|[]]];
             [|reflexivity].
           specialize (Hsnap p' Hold). cbn in Hsnap. lia.
        -- intros r' Hr' Hrid. apply in_app_or in Hr' as [Hold|[<-|[]]];
             [|reflexivity].
           specialize (Hres r' Hold). cbn in Hres. lia.
    + exfalso. apply (find_none _ _ Hfind) in Hgroup.
      rewrite Hgid, Z.eqb_refl in Hgroup. discriminate.
Qed.

Lemma create_name_unique_in_group_witness :
  PluginParameterTypeService_create 1 "integer" PNone "Again." 1 true sample_db
  = (Raise PluginParameterTypeAlreadyExistsError, sample_db)
  /\ exists s',
       PluginParameterTypeService_create 1 "integer" PNone "A whole number."
         1 true sample_db0
       = (Ok (PluginTaskParameterType.mk 1 1 "integer" PNone
                "A whole number." 1,
              Resource.mk 1 RESOURCE_TYPE 1), s')
       /\ resources s' = [Resource.mk 1 RESOURCE_TYPE 1].
Proof.
  split.
  - apply (create_name_unique_in_group 1 sample_db "integer" PNone "Again."
             1 true).
    exists (PluginTaskParameterType.mk 1 1 "integer" PNone "A whole number." 1),
      (Resource.mk 1 RESOURCE_TYPE 1).
    vm_compute. repeat split; auto.
  - destruct (proj2 (create_name_unique_in_group 1 sample_db0 "integer" PNone
                       "A whole number." 1 true))
      as [s' [Hcreate [Hres _]]].
    + intros [p [r [Hp _]]]. exact Hp.
    + exists sample_group. split; [now left | reflexivity].
    + exists s'. split; [exact Hcreate | exact Hres].
Defined.

(** ** Modifying a plugin parameter type *)

(** C1, as amended: for a plugin parameter type that the lookup by id
    finds, and fields whose name is its current name or is not taken in its
    group, [modify] appends one snapshot row with these fields and the next
    snapshot id; the lookup by id then returns the new row; every earlier
    row, the previously latest one among them, is still in the table as it
    was and is still found by its snapshot id. *)
Theorem modify_appends_snapshot (current_user : Z) (s : db) (id : Z)
    (name : string) (structure : pyval) (description : string)
    (error_if_not_found commit : bool)
    (current : PluginTaskParameterType.t) (resource : Resource.t) :
  db_invariant s ->
  PluginParameterTypeIdService_get id error_if_not_found s
  = Ok (Some (current, resource)) ->
  name = PluginTaskParameterType.name current
  \/ ~ name_taken s name (Resource.group_id resource) ->
  let snapshot :=
    PluginTaskParameterType.mk (next_resource_snapshot_id s) id name
      structure description current_user in
  exists s',
    PluginParameterTypeIdService_modify current_user id name structure
      description error_if_not_found commit s
    = (Ok (Some (snapshot, resource)), s')
    /\ plugin_task_parameter_types s'
       = (plugin_task_parameter_types s ++ [snapshot])%list
    /\ resources s' = resources s
    /\ resource_locks s' = resource_locks s
    /\ (forall flag,
           PluginParameterTypeIdService_get id flag s'
           = Ok (Some (snapshot, resource)))
    /\ In current (plugin_task_parameter_types s')
    /\ get_snapshot id
         (PluginTaskParameterType.resource_snapshot_id current) s'
       = Some current
    /\ PluginTaskParameterType.resource_snapshot_id current
       <> PluginTaskParameterType.resource_snapshot_id snapshot
    /\ db_invariant s'.
Proof.
  intros Hinv Hget Hname snapshot.
  destruct (@get_by_id_found _ _ _ _ _ Hget)
    as [Hcur [Hres [Hrid [Hpid [Hlatest Hlive]]]]].
  unfold PluginParameterTypeIdService_modify, sbind.
  unfold squery at 1. rewrite Hget. cbn [fst snd].
  assert (Hclash :
            (if negb (String.eqb name (PluginTaskParameterType.name current))
             then squery (PluginParameterTypeNameService_get name
                            (Resource.group_id resource) false)
             else sret None) s
            = (Ok None, s)).
  { destruct (String.eqb_spec name (PluginTaskParameterType.name current))
      as [Heq|Hne]; cbn [negb]; [reflexivity|].
    destruct Hname as [Heq|Hfree]; [contradiction|].
    unfold squery. now rewrite (get_by_name_free Hfree). }
  rewrite Hclash.
  unfold sadd, add_snapshot. rewrite Hrid. fold snapshot.
  set (s' := mkdb (groups s) (resources s)
               (plugin_task_parameter_types s ++ [snapshot])
               (resource_locks s) (next_resource_id s)
               (next_resource_snapshot_id s + 1)).
  assert (Hinv' : db_invariant s').
  { generalize (add_snapshot_invariant resource name structure description
                  current_user Hinv).
    unfold add_snapshot. rewrite Hrid. exact (fun H => H). }
  pose proof (snapshot_ids_issued Hinv) as Hissued.
  rewrite Forall_forall in Hissued.
  exists s'. split; [now destruct commit|].
  repeat (split; [reflexivity|]).
  split; [|split; [|split; [|split]]].
  - intros flag. apply get_by_id_unique; cbn; try reflexivity;
      try assumption.
    + apply in_or_app. right. now left.
    + rewrite (latest_snapshot_id_append s s' snapshot _ eq_refl).
      cbn. now rewrite Z.eqb_refl.
    + intros p' Hp' Hsid. apply in_app_or in Hp' as [Hold|[<-|[]]];
        [|reflexivity].
      specialize (Hissued p' Hold). cbn in Hissued. lia.
    + intros r' Hr' Hrid'.
      pose proof (@filter_unique_key _ Resource.resource_id _ _
                    (resource_ids_unique Hinv) Hres) as Hfilter.
      assert (Hin : In r' (filter (fun y => Resource.resource_id y
                                           =? Resource.resource_id resource)
                             (resources s))).
      { apply filter_In. split; [assumption|]. apply Z.eqb_eq. congruence. }
      rewrite Hfilter in Hin. destruct Hin as [<-|[]]. reflexivity.
  - cbn. apply in_or_app. now left.
  - unfold get_snapshot. cbn. apply find_app_some.
    apply (@find_unique_key _
             PluginTaskParameterType.resource_snapshot_id);
      auto.
    + exact (snapshot_ids_unique Hinv).
    + now rewrite Hpid, !Z.eqb_refl.
    + intros y _ Hy. apply andb_prop in Hy as [_ Hy]. now apply Z.eqb_eq.
  - specialize (Hissued current Hcur). cbn in *. lia.
  - exact Hinv'.
Qed.

Lemma db_invariant_sample_db : db_invariant sample_db.
Proof.
  constructor; vm_compute; repeat constructor; simpl; intuition discriminate.
Qed.

Lemma modify_appends_snapshot_witness :
  exists s',
    PluginParameterTypeIdService_modify 1 2 "changed_name"
      (PDict [("key", PStr "value")]) "The shape of an image." true true
      sample_db
    = (Ok (Some (PluginTaskParameterType.mk 3 2 "changed_name"
                   (PDict [("key", PStr "value")]) "The shape of an image." 1,
                 Resource.mk 2 RESOURCE_TYPE 1)), s')
    /\ get_snapshot 2 2 s'
       = Some (PluginTaskParameterType.mk 2 2 "image_shape" PNone
                 "The shape of an image." 1).
Proof.
  destruct (@modify_appends_snapshot 1 sample_db 2 "changed_name"
              (PDict [("key", PStr "value")]) "The shape of an image."
              true true
              (PluginTaskParameterType.mk 2 2 "image_shape" PNone
                 "The shape of an image." 1)
              (Resource.mk 2 RESOURCE_TYPE 1))
    as [s' [Hmodify [_ [_ [_ [_ [_ [Hold _]]]]]]]].
  - exact db_invariant_sample_db.
  - reflexivity.
  - right. intros [p [r [Hp [_ [_ [Hname _]]]]]].
    vm_compute in Hp. destruct Hp as [<-|[<-|[]]]; discriminate Hname.
  - exists s'. split; [exact Hmodify | exact Hold].
Defined.

(** C1 as first stated fails for fields whose name belongs to another
    plugin parameter type of the group: renaming "image_shape" to "integer"
    raises [AlreadyExists], no row is inserted, and the lookup by id still
    returns the old fields. *)
Lemma modify_counterexample :
  PluginParameterTypeIdService_get 2 true sample_db
  = Ok (Some (PluginTaskParameterType.mk 2 2 "image_shape" PNone
                "The shape of an image." 1,
              Resource.mk 2 RESOURCE_TYPE 1))
  /\ PluginParameterTypeIdService_modify 1 2 "integer" PNone "Renamed." true
       true sample_db
     = (Raise PluginParameterTypeAlreadyExistsError, sample_db)
  /\ plugin_task_parameter_types
       (snd (PluginParameterTypeIdService_modify 1 2 "integer" PNone
               "Renamed." true true sample_db))
     = plugin_task_parameter_types sample_db
  /\ PluginParameterTypeIdService_get 2 true
       (snd (PluginParameterTypeIdService_modify 1 2 "integer" PNone
               "Renamed." true true sample_db))
     = Ok (Some (PluginTaskParameterType.mk 2 2 "image_shape" PNone
                   "The shape of an image." 1,
                 Resource.mk 2 RESOURCE_TYPE 1)).
Proof. repeat split. Qed.

(** ** The key discipline is kept by every service call *)

Lemma create_preserves_invariant (current_user : Z) (name : string)
    (structure : pyval) (description : string) (group_id : Z)
    (commit : bool) (s : db) :
  db_invariant s ->
  db_invariant
    (snd (PluginParameterTypeService_create current_user name structure
            description group_id commit s)).
Proof.
  intros Hinv. unfold PluginParameterTypeService_create, sbind, squery.
  destruct (PluginParameterTypeNameService_get name group_id false s)
    as [[existing|]|e]; try exact Hinv.
  destruct (GroupIdService_get group_id true s) as [[group|]|e];
    try exact Hinv.
  unfold sadd.
  pose proof (add_resource_with_snapshot_invariant group name structure
                description current_user Hinv) as Hinv'.
  destruct (add_resource_with_snapshot group name structure description
              current_user s) as [new s'].
  destruct commit; exact Hinv'.
Qed.

Lemma modify_preserves_invariant (current_user id : Z) (name : string)
    (structure : pyval) (description : string)
    (error_if_not_found commit : bool) (s : db) :
  db_invariant s ->
  db_invariant
    (snd (PluginParameterTypeIdService_modify current_user id name structure
            description error_if_not_found commit s)).
Proof.
  intros Hinv. unfold PluginParameterTypeIdService_modify, sbind.
  unfold squery at 1.
  destruct (PluginParameterTypeIdService_get id error_if_not_found s)
    as [[[current resource]|]|e]; try exact Hinv.
  cbn [fst snd].
  destruct (negb (String.eqb name (PluginTaskParameterType.name current))).
  - unfold squery.
    destruct (PluginParameterTypeNameService_get name
                (Resource.group_id resource) false s) as [[clash|]|e];
      try exact Hinv.
    unfold sadd.
    pose proof (add_snapshot_invariant resource name structure description
                  current_user Hinv) as Hinv'.
    destruct (add_snapshot resource name structure description current_user s)
      as [new s'].
    destruct commit; exact Hinv'.
  - unfold sret at 1. unfold sadd.
    pose proof (add_snapshot_invariant resource name structure description
                  current_user Hinv) as Hinv'.
    destruct (add_snapshot resource name structure description current_user s)
      as [new s'].
    destruct commit; exact Hinv'.
Qed.

Lemma delete_preserves_invariant (id : Z) (s : db) :
  db_invariant s ->
  db_invariant (snd (PluginParameterTypeIdService_delete id s)).
Proof.
  intros Hinv. unfold PluginParameterTypeIdService_delete, sbind, squery.
  match goal with
  | |- context [find ?f (resources s)] =>
      destruct (find f (resources s)) as [found|] eqn:Hfind
  end; [|exact Hinv].
  apply find_some in Hfind as [Hin _]. cbn.
  unfold session_commit. now apply add_resource_lock_invariant.
Qed.

Lemma db_invariant_sample_db0 : db_invariant sample_db0.
Proof. constructor; cbn; constructor. Qed.

(** ** Reading the index back from a paging link *)

Lemma string_app_assoc (a b c : string) : (a ++ b) ++ c = a ++ b ++ c.
Proof. induction a as [|x a IH]; simpl; [reflexivity | now rewrite IH]. Qed.

Lemma strip_prefix_app (prefix s : string) :
  strip_prefix prefix (prefix ++ s) = Some s.
Proof.
  induction prefix as [|c prefix IH]; simpl; [now destruct s|].
  now rewrite Ascii.eqb_refl.
Qed.

Lemma quote_plus_uint (d : uint) :
  quote_plus (NilEmpty.string_of_uint d) = NilEmpty.string_of_uint d.
Proof. induction d; simpl; try reflexivity; now rewrite IHd. Qed.

Lemma quote_plus_str_of_int (z : Z) : quote_plus (str_of_int z) = str_of_int z.
Proof.
  unfold str_of_int. destruct (Z.to_int z) as [d|d]; simpl.
  - apply quote_plus_uint.
  - change (always_safe "-") with true. cbn iota. now rewrite quote_plus_uint.
Qed.

Lemma take_until_uint (d : uint) (rest : string) :
  take_until "&" (NilEmpty.string_of_uint d ++ String "&" rest)
  = NilEmpty.string_of_uint d.
Proof. induction d; simpl; try reflexivity; now rewrite IHd. Qed.

Lemma take_until_str_of_int (z : Z) (rest : string) :
  take_until "&" (str_of_int z ++ String "&" rest) = str_of_int z.
Proof.
  unfold str_of_int. destruct (Z.to_int z) as [d|d]; simpl.
  - apply take_until_uint.
  - now rewrite take_until_uint.
Qed.

Lemma int_of_str_of_int (z : Z) :
  option_map Z.of_int (NilEmpty.int_of_string (str_of_int z)) = Some z.
Proof.
  unfold str_of_int. rewrite NilEmpty.isi. simpl. f_equal.
  apply DecimalZ.of_to.
Qed.

Section PagingFacts.
Variable V1_ROOT : string.

(** A paging link spells its index right after the path. *)
Lemma build_paging_url_spelling (route_prefix : string) (group_id : option Z)
    (search draft_type : option string) (index length : Z) :
  exists rest,
    build_paging_url V1_ROOT route_prefix group_id search draft_type index
      length
    = ("/" ++ V1_ROOT ++ "/" ++ route_prefix ++ "?index=")
      ++ str_of_int index ++ String "&" rest.
Proof.
  destruct (paging_query_params_shape group_id search draft_type length)
    as [filters Hshape].
  unfold build_paging_url, build_url. rewrite Hshape.
  unfold urlencode. cbn [map fst snd py_str String.concat].
  rewrite quote_plus_str_of_int.
  change (quote_plus "index") with "index".
  unfold urlunparse_path_query. cbn [append String.eqb Ascii.eqb].
  eexists. cbn [Bool.eqb]. rewrite !string_app_assoc. cbn [append].
  rewrite !string_app_assoc. cbn [append]. reflexivity.
Qed.

Lemma paging_url_index_build_paging_url (route_prefix : string)
    (group_id : option Z) (search draft_type : option string)
    (index length : Z) :
  paging_url_index V1_ROOT route_prefix
    (build_paging_url V1_ROOT route_prefix group_id search draft_type index
       length)
  = Some index.
Proof.
  destruct (build_paging_url_spelling route_prefix group_id search
              draft_type index length) as [rest ->].
  unfold paging_url_index. rewrite strip_prefix_app.
  rewrite take_until_str_of_int. apply int_of_str_of_int.
Qed.
End PagingFacts.

(** ** Listing plugin parameter types page by page *)

Lemma service_get_page (group_id : option Z) (page_index page_length : Z)
    (s : db) :
  PluginParameterTypeService_get group_id "" page_index page_length s
  = Ok (offset_limit page_index page_length
          (latest_plugin_parameter_types group_id s),
        Z.of_nat (List.length (latest_plugin_parameter_types group_id s))).
Proof.
  unfold PluginParameterTypeService_get, scalars_count, scalars_all.
  cbn [String.eqb negb].
  destruct (Z.eqb_spec
              (Z.of_nat
                 (List.length (latest_plugin_parameter_types group_id s)))
              0) as [Hzero|Hpos]; [|reflexivity].
  destruct (latest_plugin_parameter_types group_id s) as [|x l];
    [|discriminate].
  unfold offset_limit. now rewrite skipn_nil, firstn_nil.
Qed.

Section EnvelopeFacts.
Variable V1_ROOT : string.
Context {A : Type}.
Variable build_fn : A -> pyval.

Lemma envelope_data_build (route_prefix : string) (data : list A)
    (group_id : option Z) (query draft_type : option string)
    (index length total : Z) :
  envelope_data
    (build_paging_envelope V1_ROOT route_prefix build_fn data group_id query
       draft_type index length total)
  = map build_fn data.
Proof.
  unfold build_paging_envelope, envelope_data.
  paging_cases index length total; reflexivity.
Qed.

Lemma envelope_is_complete_build (route_prefix : string) (data : list A)
    (group_id : option Z) (query draft_type : option string)
    (index length total : Z) :
  envelope_is_complete
    (build_paging_envelope V1_ROOT route_prefix build_fn data group_id query
       draft_type index length total)
  = Some (negb (index + length <? total)).
Proof.
  unfold build_paging_envelope, envelope_is_complete.
  paging_cases index length total; reflexivity.
Qed.

Lemma envelope_next_build (route_prefix : string) (data : list A)
    (group_id : option Z) (query draft_type : option string)
    (index length total : Z) :
  dict_get "next"
    (build_paging_envelope V1_ROOT route_prefix build_fn data group_id query
       draft_type index length total)
  = if index + length <? total
    then Some (PStr (build_paging_url V1_ROOT route_prefix group_id query
                       draft_type (index + length) length))
    else None.
Proof.
  unfold build_paging_envelope.
  paging_cases index length total; reflexivity.
Qed.
End EnvelopeFacts.


Section FollowFacts.
Variable V1_ROOT : string.
Variable build_fn : plugin_parameter_type -> pyval.
Variable group_id : option Z.
Variable page_length : Z.
Variable s : db.
Hypothesis page_length_positive : 0 < page_length.

End FollowFacts.

Lemma NoDup_latest_plugin_parameter_types (group_id : option Z) (s : db) :
  db_invariant s -> NoDup (latest_plugin_parameter_types group_id s).
Proof.
  intros Hinv. unfold latest_plugin_parameter_types.
  apply NoDup_filter. now apply NoDup_join_resource.
Qed.



(* ===================================================================== *)
(** * Part III: further properties of the code                             *)
(* ===================================================================== *)

(** ** The outcomes of the three mutating services *)

Lemma name_taken_current_version (s : db) (name : string) (group_id : Z) :
  name_taken s name group_id
  <-> exists p r,
        current_version s p r
        /\ PluginTaskParameterType.name p = name
        /\ Resource.group_id r = group_id.
Proof.
  unfold name_taken, current_version. split.
  - intros [p [r [Hp [Hr [Hid [Hname [Hgroup [Hlive Hlatest]]]]]]]].
    exists p, r. repeat split; assumption.
  - intros [p [r [[Hp [Hr [Hid [Hlive Hlatest]]]] [Hname Hgroup]]]].
    exists p, r. repeat split; assumption.
Qed.

Lemma get_by_name_none_free (s : db) (name : string) (group_id : Z)
    (flag : bool) :
  PluginParameterTypeNameService_get name group_id flag s = Ok None ->
  ~ name_taken s name group_id.
Proof.
  intros Hnone Htaken.
  destruct (get_by_name_taken flag Htaken) as [found Hfound]. congruence.
Qed.

(** The lookup by name returns a current version with that name, of that
    group. *)
Lemma get_by_name_found {s : db} {name : string} {group_id : Z}
    {flag : bool} {p : PluginTaskParameterType.t} {r : Resource.t} :
  PluginParameterTypeNameService_get name group_id flag s = Ok (Some (p, r)) ->
  current_version s p r
  /\ PluginTaskParameterType.name p = name
  /\ Resource.group_id r = group_id.
Proof.
  unfold PluginParameterTypeNameService_get, scalars_first.
  match goal with
  | |- context [hd_error (filter ?f ?l)] =>
      destruct (hd_error (filter f l)) as [[p' r']|] eqn:Hhd
  end.
  - intros Heq. injection Heq as -> ->.
    apply hd_error_filter_some in Hhd as [Hin Hcond].
    apply in_join_resource in Hin as [Hp [Hr Hid]].
    apply andb_prop in Hcond as [Hcond Hlatest].
    apply andb_prop in Hcond as [Hcond Hlive].
    apply andb_prop in Hcond as [Hname Hgroup].
    apply String.eqb_eq in Hname. apply Z.eqb_eq in Hgroup.
    apply is_latest_iff in Hlatest. apply negb_true_iff in Hlive.
    unfold current_version. repeat split; assumption.
  - destruct flag; discriminate.
Qed.

Lemma get_by_id_current_version {s : db} {id : Z} {flag : bool}
    {p : PluginTaskParameterType.t} {r : Resource.t} :
  PluginParameterTypeIdService_get id flag s = Ok (Some (p, r)) ->
  current_version s p r /\ Resource.resource_id r = id.
Proof.
  intros Hget.
  destruct (@get_by_id_found _ _ _ _ _ Hget)
    as [Hp [Hr [Hrid [Hpid [Hlatest Hlive]]]]].
  unfold current_version. rewrite Hrid.
  repeat split; try assumption. congruence.
Qed.

(** [create] either raises and leaves the session alone, or finds the name
    free and the group present and inserts a resource with its first
    snapshot. *)
Lemma create_outcomes (current_user : Z) (name : string) (structure : pyval)
    (description : string) (group_id : Z) (commit : bool) (s : db) :
  let outcome :=
    PluginParameterTypeService_create current_user name structure
      description group_id commit s in
  (snd outcome = s /\ exists e, fst outcome = Raise e)
  \/ (exists group,
         In group (groups s)
         /\ Group.group_id group = group_id
         /\ ~ name_taken s name group_id
         /\ outcome
            = (Ok (fst (add_resource_with_snapshot group name structure
                          description current_user s)),
               snd (add_resource_with_snapshot group name structure
                      description current_user s))).
Proof.
  cbv zeta. unfold PluginParameterTypeService_create, sbind, squery.
  destruct (PluginParameterTypeNameService_get name group_id false s)
    as [[existing|]|e] eqn:Hname; cbn [fst snd];
    [left; split; [reflexivity | eexists; reflexivity] |
    | left; split; [reflexivity | eexists; reflexivity]].
  apply get_by_name_none_free in Hname.
  unfold GroupIdService_get.
  destruct (find (fun g => Group.group_id g =? group_id) (groups s))
    as [group|] eqn:Hfind.
  - apply find_some in Hfind as [Hin Hid]. apply Z.eqb_eq in Hid.
    right. exists group. repeat (split; [assumption|]).
    unfold sadd.
    destruct (add_resource_with_snapshot group name structure description
                current_user s) as [new s'].
    now destruct commit.
  - left. split; [reflexivity | eexists; reflexivity].
Qed.

(** [modify] either leaves the session alone (nothing found, or an error),
    or finds the current version, sees no clash of names, and inserts one
    snapshot for the resource. *)
Lemma modify_outcomes (current_user id : Z) (name : string)
    (structure : pyval) (description : string)
    (error_if_not_found commit : bool) (s : db) :
  let outcome :=
    PluginParameterTypeIdService_modify current_user id name structure
      description error_if_not_found commit s in
  (snd outcome = s
   /\ (fst outcome = Ok None \/ exists e, fst outcome = Raise e))
  \/ (exists current resource,
         PluginParameterTypeIdService_get id error_if_not_found s
         = Ok (Some (current, resource))
         /\ (name = PluginTaskParameterType.name current
             \/ ~ name_taken s name (Resource.group_id resource))
         /\ outcome
            = (Ok (Some (fst (add_snapshot resource name structure
                                description current_user s))),
               snd (add_snapshot resource name structure description
                      current_user s))).
Proof.
  intros outcome. subst outcome.
  remember (PluginParameterTypeIdService_modify current_user id name
              structure description error_if_not_found commit s)
    as outcome eqn:Hout.
  unfold PluginParameterTypeIdService_modify, sbind in Hout.
  unfold squery at 1 in Hout.
  destruct (PluginParameterTypeIdService_get id error_if_not_found s)
    as [[[current resource]|]|e] eqn:Hget; cbn [fst snd] in Hout;
    [| subst outcome; left; split; [reflexivity | left; reflexivity]
     | subst outcome; left; split;
       [reflexivity | right; eexists; reflexivity]].
  assert (Hadd :
            (let (r, s') :=
               sadd (add_snapshot resource name structure description
                       current_user) s in
             match r with
             | Ok a =>
                 let (r0, s'0) :=
                   (if commit then supdate session_commit else sret tt) s' in
                 match r0 with
                 | Ok _ => sret (Some a) s'0
                 | Raise e => (Raise e, s'0)
                 end
             | Raise e => (Raise e, s')
             end)
            = (Ok (Some (fst (add_snapshot resource name structure
                                description current_user s))),
               snd (add_snapshot resource name structure description
                      current_user s))).
  { unfold sadd.
    destruct (add_snapshot resource name structure description current_user
                s) as [new s'].
    now destruct commit. }
  destruct (String.eqb_spec name (PluginTaskParameterType.name current))
    as [Hsame|Hdiff]; cbn [negb] in Hout.
  - unfold sret at 1 in Hout. rewrite Hadd in Hout. subst outcome.
    right. exists current, resource.
    split; [reflexivity|]. split; [now left | reflexivity].
  - unfold squery in Hout.
    destruct (PluginParameterTypeNameService_get name
                (Resource.group_id resource) false s)
      as [[clash|]|e] eqn:Hname;
      [subst outcome; left; split;
       [reflexivity | right; eexists; reflexivity] |
      | subst outcome; left; split;
        [reflexivity | right; eexists; reflexivity]].
    apply get_by_name_none_free in Hname.
    rewrite Hadd in Hout. subst outcome.
    right. exists current, resource.
    split; [reflexivity|]. split; [now right | reflexivity].
Qed.

(** [delete] either raises [DoesNotExist] and leaves the session alone, or
    finds a resource of the type that is not deleted and records a "delete"
    lock for it. *)
Lemma delete_outcomes (id : Z) (s : db) :
  PluginParameterTypeIdService_delete id s
  = (Raise PluginParameterTypeDoesNotExistError, s)
  \/ (exists found,
         In found (resources s)
         /\ Resource.resource_id found = id
         /\ Resource.resource_type found = RESOURCE_TYPE
         /\ is_deleted s id = false
         /\ PluginParameterTypeIdService_delete id s
            = (Ok [ ("status", PStr "Success");
                    ("plugin_parameter_type_id", PInt id) ],
               add_resource_lock "delete" found s)).
Proof.
  unfold PluginParameterTypeIdService_delete, sbind, squery.
  match goal with
  | |- context [find ?f (resources s)] =>
      destruct (find f (resources s)) as [found|] eqn:Hfind
  end; [|now left].
  apply find_some in Hfind as [Hin Hcond].
  apply andb_prop in Hcond as [Hcond Hlive].
  apply andb_prop in Hcond as [Hid Htype].
  apply Z.eqb_eq in Hid. apply String.eqb_eq in Htype.
  apply negb_true_iff in Hlive. rewrite Hid in Hlive.
  right. exists found. repeat (split; [assumption|]). reflexivity.
Qed.

(** ** Current versions across an insertion *)

Lemma issued_not_next (s : db) (p : PluginTaskParameterType.t) :
  db_invariant s -> In p (plugin_task_parameter_types s) ->
  PluginTaskParameterType.resource_snapshot_id p
  <> next_resource_snapshot_id s.
Proof.
  intros Hinv Hp. pose proof (snapshot_ids_issued Hinv) as Hissued.
  rewrite Forall_forall in Hissued. specialize (Hissued p Hp).
  cbn in Hissued. lia.
Qed.

Lemma resource_issued_not_next (s : db) (r : Resource.t) :
  db_invariant s -> In r (resources s) ->
  Resource.resource_id r <> next_resource_id s.
Proof.
  intros Hinv Hr. pose proof (resource_ids_issued Hinv) as Hissued.
  rewrite Forall_forall in Hissued. specialize (Hissued r Hr).
  cbn in Hissued. lia.
Qed.

Lemma resource_by_id_unique {s : db} {r r' : Resource.t} :
  db_invariant s -> In r (resources s) -> In r' (resources s) ->
  Resource.resource_id r = Resource.resource_id r' -> r = r'.
Proof.
  intros Hinv Hr Hr' Hid.
  pose proof (@filter_unique_key _ Resource.resource_id _ _
                (resource_ids_unique Hinv) Hr') as Hfilter.
  assert (Hin : In r (filter (fun y => Resource.resource_id y
                                      =? Resource.resource_id r')
                        (resources s))).
  { apply filter_In. split; [assumption|]. now apply Z.eqb_eq. }
  rewrite Hfilter in Hin. destruct Hin as [<-|[]]. reflexivity.
Qed.

Lemma snapshot_by_id_unique {s : db} {p p' : PluginTaskParameterType.t} :
  db_invariant s ->
  In p (plugin_task_parameter_types s) ->
  In p' (plugin_task_parameter_types s) ->
  PluginTaskParameterType.resource_snapshot_id p
  = PluginTaskParameterType.resource_snapshot_id p' ->
  p = p'.
Proof.
  intros Hinv Hp Hp' Hid.
  pose proof (@filter_unique_key _
                PluginTaskParameterType.resource_snapshot_id _ _
                (snapshot_ids_unique Hinv) Hp') as Hfilter.
  assert (Hin : In p (filter
                        (fun y =>
                           PluginTaskParameterType.resource_snapshot_id y
                           =? PluginTaskParameterType.resource_snapshot_id p')
                        (plugin_task_parameter_types s))).
  { apply filter_In. split; [assumption|]. now apply Z.eqb_eq. }
  rewrite Hfilter in Hin. destruct Hin as [<-|[]]. reflexivity.
Qed.

(** After a snapshot was inserted for a resource, that resource has the new
    snapshot as its current version (when it is not deleted) and every
    other resource has the current version it had. *)
Lemma current_version_add_snapshot (resource : Resource.t) (name : string)
    (structure : pyval) (description : string) (creator : Z) (s : db)
    (p : PluginTaskParameterType.t) (r : Resource.t) :
  db_invariant s ->
  let new := fst (add_snapshot resource name structure description creator s) in
  let s' := snd (add_snapshot resource name structure description creator s) in
  current_version s' p r
  <-> (Resource.resource_id r <> Resource.resource_id resource
       /\ current_version s p r)
      \/ (Resource.resource_id r = Resource.resource_id resource
          /\ p = fst new
          /\ In r (resources s)
          /\ is_deleted s (Resource.resource_id r) = false).
Proof.
  intros Hinv new s'. unfold current_version.
  rewrite (latest_snapshot_id_append s s' (fst new) _ eq_refl).
  change (is_deleted s' (Resource.resource_id r))
    with (is_deleted s (Resource.resource_id r)).
  change (resources s') with (resources s).
  change (plugin_task_parameter_types s')
    with (plugin_task_parameter_types s ++ [fst new])%list.
  change (PluginTaskParameterType.resource_id (fst new))
    with (Resource.resource_id resource).
  change (PluginTaskParameterType.resource_snapshot_id (fst new))
    with (next_resource_snapshot_id s).
  destruct (Z.eqb_spec (Resource.resource_id resource)
              (Resource.resource_id r)) as [Heq|Hne].
  - split.
    + intros [Hp [Hr [Hid [Hlive Hlatest]]]]. right.
      injection Hlatest as Hsid.
      apply in_app_or in Hp as [Hold|[<-|[]]].
      * exfalso. apply (@issued_not_next _ _ Hinv Hold). congruence.
      * repeat split; auto.
    + intros [[Hne _]|[_ [-> [Hr Hlive]]]]; [congruence|].
      repeat split; auto. apply in_or_app. right. now left.
  - split.
    + intros [Hp [Hr [Hid [Hlive Hlatest]]]]. left.
      split; [congruence|].
      apply in_app_or in Hp as [Hold|[<-|[]]].
      * repeat split; auto.
      * cbn in Hid. congruence.
    + intros [[_ [Hp [Hr [Hid [Hlive Hlatest]]]]]|[Heq _]]; [|congruence].
      repeat split; auto. apply in_or_app. now left.
Qed.

(** After a resource was inserted with its first snapshot, the new pair is
    a current version and the others are the ones from before. *)
Lemma current_version_add_resource_with_snapshot (group : Group.t)
    (name : string) (structure : pyval) (description : string) (creator : Z)
    (s : db) (p : PluginTaskParameterType.t) (r : Resource.t) :
  db_invariant s ->
  let new :=
    fst (add_resource_with_snapshot group name structure description
           creator s) in
  let s' :=
    snd (add_resource_with_snapshot group name structure description
           creator s) in
  current_version s' p r <-> current_version s p r \/ (p, r) = new.
Proof.
  intros Hinv new s'. unfold current_version.
  rewrite (latest_snapshot_id_append s s' (fst new) _ eq_refl).
  change (is_deleted s' (Resource.resource_id r))
    with (is_deleted s (Resource.resource_id r)).
  change (resources s') with (resources s ++ [snd new])%list.
  change (plugin_task_parameter_types s')
    with (plugin_task_parameter_types s ++ [fst new])%list.
  change (PluginTaskParameterType.resource_id (fst new))
    with (next_resource_id s).
  change (PluginTaskParameterType.resource_snapshot_id (fst new))
    with (next_resource_snapshot_id s).
  destruct (Z.eqb_spec (next_resource_id s) (Resource.resource_id r))
    as [Heq|Hne].
  - split.
    + intros [Hp [Hr [Hid [Hlive Hlatest]]]]. right.
      injection Hlatest as Hsid.
      apply in_app_or in Hr as [Hold|[<-|[]]];
        [exfalso; apply (@resource_issued_not_next _ _ Hinv Hold);
         congruence|].
      apply in_app_or in Hp as [Hold|[<-|[]]];
        [exfalso; apply (@issued_not_next _ _ Hinv Hold); congruence|].
      now destruct new.
    + intros [[_ [Hr _]]|Hnew].
      * exfalso.
        apply (@resource_issued_not_next _ _ Hinv Hr). congruence.
      * assert (Hp : p = fst new) by now rewrite <- Hnew.
        assert (Hr : r = snd new) by now rewrite <- Hnew.
        subst p r. repeat split.
        -- apply in_or_app. right. now left.
        -- apply in_or_app. right. now left.
        -- apply is_deleted_issued; [assumption | cbn; lia].
  - split.
    + intros [Hp [Hr [Hid [Hlive Hlatest]]]]. left.
      apply in_app_or in Hr as [Hr|[<-|[]]]; [|cbn in Hne; congruence].
      apply in_app_or in Hp as [Hp|[<-|[]]]; [|cbn in Hid; congruence].
      repeat split; auto.
    + intros [[Hp [Hr [Hid [Hlive Hlatest]]]]|Hnew].
      * repeat split; auto; apply in_or_app; now left.
      * exfalso. apply Hne.
        assert (Hr : r = snd new) by now rewrite <- Hnew.
        now rewrite Hr.
Qed.

(** After a "delete" lock was recorded for a resource, the current
    versions are those of the other resources. *)
Lemma current_version_add_resource_lock (found : Resource.t) (s : db)
    (p : PluginTaskParameterType.t) (r : Resource.t) :
  current_version (add_resource_lock "delete" found s) p r
  <-> current_version s p r
      /\ Resource.resource_id r <> Resource.resource_id found.
Proof.
  unfold current_version. rewrite is_deleted_add_resource_lock.
  change (latest_snapshot_id (add_resource_lock "delete" found s))
    with (latest_snapshot_id s).
  change (resources (add_resource_lock "delete" found s))
    with (resources s).
  change (plugin_task_parameter_types (add_resource_lock "delete" found s))
    with (plugin_task_parameter_types s).
  rewrite orb_false_iff, Z.eqb_neq. intuition congruence.
Qed.

(** ** Rows are only ever added *)

Lemma extends_refl (s : db) : extends s s.
Proof.
  unfold extends. split; [reflexivity|].
  repeat split; exists []; now rewrite app_nil_r.
Qed.

Lemma extends_get_snapshot (s s' : db) (resource_id snapshot_id : Z)
    (p : PluginTaskParameterType.t) :
  extends s s' ->
  get_snapshot resource_id snapshot_id s = Some p ->
  get_snapshot resource_id snapshot_id s' = Some p.
Proof.
  intros [_ [_ [[added Hadded] _]]] Hget. unfold get_snapshot in *.
  rewrite Hadded. now apply find_app_some.
Qed.

Lemma extends_is_deleted (s s' : db) (resource_id : Z) :
  extends s s' ->
  is_deleted s resource_id = true -> is_deleted s' resource_id = true.
Proof.
  intros [_ [_ [_ [added Hadded]]]] Hdel. unfold is_deleted in *.
  rewrite Hadded, existsb_app, Hdel. reflexivity.
Qed.

Lemma create_extends (current_user : Z) (name : string) (structure : pyval)
    (description : string) (group_id : Z) (commit : bool) (s : db) :
  extends s
    (snd (PluginParameterTypeService_create current_user name structure
            description group_id commit s)).
Proof.
  destruct (create_outcomes current_user name structure description group_id
              commit s) as [[-> _]|[group [_ [_ [_ ->]]]]].
  - apply extends_refl.
  - unfold extends. cbn. split; [reflexivity|].
    split; [eexists; reflexivity|]. split; [eexists; reflexivity|].
    exists []. now rewrite app_nil_r.
Qed.

Lemma modify_extends (current_user id : Z) (name : string)
    (structure : pyval) (description : string)
    (error_if_not_found commit : bool) (s : db) :
  extends s
    (snd (PluginParameterTypeIdService_modify current_user id name structure
            description error_if_not_found commit s)).
Proof.
  destruct (modify_outcomes current_user id name structure description
              error_if_not_found commit s)
    as [[-> _]|[current [resource [_ [_ ->]]]]].
  - apply extends_refl.
  - unfold extends. cbn. split; [reflexivity|].
    split; [exists []; now rewrite app_nil_r|].
    split; [eexists; reflexivity|].
    exists []. now rewrite app_nil_r.
Qed.

Lemma delete_extends (id : Z) (s : db) :
  extends s (snd (PluginParameterTypeIdService_delete id s)).
Proof.
  destruct (delete_outcomes id s) as [->|[found [_ [_ [_ [_ ->]]]]]].
  - apply extends_refl.
  - unfold extends. cbn. split; [reflexivity|].
    split; [exists []; now rewrite app_nil_r|].
    split; [exists []; now rewrite app_nil_r|].
    eexists. reflexivity.
Qed.

(** X1: no call of [create], [modify] or [delete], whatever its arguments
    and whether it returns or raises, removes or rewrites a row: the
    resource, snapshot and lock tables afterwards are the tables from
    before with rows added at the end, and every snapshot that could be
    read by its id before can be read after. *)
Theorem services_only_add_rows (current_user : Z) (name : string)
    (structure : pyval) (description : string) (group_id id : Z)
    (error_if_not_found commit : bool) (s : db) :
  let after_create :=
    snd (PluginParameterTypeService_create current_user name structure
           description group_id commit s) in
  let after_modify :=
    snd (PluginParameterTypeIdService_modify current_user id name structure
           description error_if_not_found commit s) in
  let after_delete := snd (PluginParameterTypeIdService_delete id s) in
  extends s after_create /\ extends s after_modify /\ extends s after_delete
  /\ forall resource_id snapshot_id p,
       get_snapshot resource_id snapshot_id s = Some p ->
       get_snapshot resource_id snapshot_id after_create = Some p
       /\ get_snapshot resource_id snapshot_id after_modify = Some p
       /\ get_snapshot resource_id snapshot_id after_delete = Some p.
Proof.
  cbv zeta.
  pose proof (create_extends current_user name structure description
                group_id commit s) as Hcreate.
  pose proof (modify_extends current_user id name structure description
                error_if_not_found commit s) as Hmodify.
  pose proof (delete_extends id s) as Hdelete.
  split; [exact Hcreate|]. split; [exact Hmodify|]. split; [exact Hdelete|].
  intros resource_id snapshot_id p Hget.
  split; [|split]; eapply extends_get_snapshot; eassumption.
Qed.

(** ** A deleted resource stays deleted *)

Lemma modify_deleted (current_user id : Z) (name : string)
    (structure : pyval) (description : string)
    (error_if_not_found commit : bool) (s : db) :
  is_deleted s id = true ->
  PluginParameterTypeIdService_modify current_user id name structure
    description error_if_not_found commit s
  = ((if error_if_not_found
      then Raise PluginParameterTypeDoesNotExistError
      else Ok None), s).
Proof.
  intros Hdel. unfold PluginParameterTypeIdService_modify, sbind.
  unfold squery at 1. rewrite (get_by_id_deleted s id _ Hdel).
  now destruct error_if_not_found.
Qed.

Lemma delete_deleted (id : Z) (s : db) :
  is_deleted s id = true ->
  PluginParameterTypeIdService_delete id s
  = (Raise PluginParameterTypeDoesNotExistError, s).
Proof.
  intros Hdel.
  destruct (delete_outcomes id s) as [H|[found [_ [_ [_ [Hlive _]]]]]];
    [exact H | congruence].
Qed.

(** X2: for a resource with a "delete" lock, the lookup by id finds
    nothing, [modify] does nothing ([None], or [DoesNotExist] when asked to
    raise) and [delete] raises [DoesNotExist], each leaving the session as
    it was; and no later call of [create], [modify] or [delete], on any
    resource, makes it live again. *)
Theorem deleted_is_terminal (current_user : Z) (name : string)
    (structure : pyval) (description : string) (group_id id other : Z)
    (error_if_not_found commit : bool) (s : db) :
  is_deleted s id = true ->
  PluginParameterTypeIdService_get id error_if_not_found s
  = (if error_if_not_found
     then Raise PluginParameterTypeDoesNotExistError
     else Ok None)
  /\ PluginParameterTypeIdService_modify current_user id name structure
       description error_if_not_found commit s
     = ((if error_if_not_found
         then Raise PluginParameterTypeDoesNotExistError
         else Ok None), s)
  /\ PluginParameterTypeIdService_delete id s
     = (Raise PluginParameterTypeDoesNotExistError, s)
  /\ is_deleted
       (snd (PluginParameterTypeService_create current_user name structure
               description group_id commit s)) id = true
  /\ is_deleted
       (snd (PluginParameterTypeIdService_modify current_user other name
               structure description error_if_not_found commit s)) id = true
  /\ is_deleted (snd (PluginParameterTypeIdService_delete other s)) id = true.
Proof.
  intros Hdel.
  split; [now apply get_by_id_deleted|].
  split; [now apply modify_deleted|].
  split; [now apply delete_deleted|].
  split; [|split].
  - eapply extends_is_deleted; [apply create_extends | exact Hdel].
  - eapply extends_is_deleted; [apply modify_extends | exact Hdel].
  - eapply extends_is_deleted; [apply delete_extends | exact Hdel].
Qed.

Lemma deleted_is_terminal_witness :
  PluginParameterTypeIdService_modify 1 2 "shape" PNone "Back again." true
    true sample_db_deleted
  = (Raise PluginParameterTypeDoesNotExistError, sample_db_deleted)
  /\ is_deleted
       (snd (PluginParameterTypeService_create 1 "image_shape" PNone
               "The shape of an image." 1 true sample_db_deleted)) 2
     = true.
Proof.
  destruct (@deleted_is_terminal 1 "shape" PNone "Back again." 1 2 1 true
              true sample_db_deleted eq_refl)
    as [_ [Hmodify _]].
  destruct (@deleted_is_terminal 1 "image_shape" PNone
              "The shape of an image." 1 2 1 true true sample_db_deleted
              eq_refl)
    as [_ [_ [_ [Hcreate _]]]].
  split; [exact Hmodify | exact Hcreate].
Defined.

(** ** One holder per name and group *)

Lemma names_unique_create (current_user : Z) (name : string)
    (structure : pyval) (description : string) (group_id : Z)
    (commit : bool) (s : db) :
  db_invariant s -> names_unique s ->
  names_unique
    (snd (PluginParameterTypeService_create current_user name structure
            description group_id commit s)).
Proof.
  intros Hinv Huniq.
  destruct (create_outcomes current_user name structure description group_id
              commit s) as [[-> _]|[group [_ [Hgid [Hfree ->]]]]];
    [exact Huniq|].
  cbn [snd]. intros p r p' r' Hcv Hcv' Hname Hgroup.
  apply (current_version_add_resource_with_snapshot group name structure
           description current_user p r Hinv) in Hcv.
  apply (current_version_add_resource_with_snapshot group name structure
           description current_user p' r' Hinv) in Hcv'.
  destruct Hcv as [Hold|Hnew]; destruct Hcv' as [Hold'|Hnew'].
  - now apply (Huniq p r p' r').
  - exfalso. apply Hfree. apply name_taken_current_version.
    exists p, r. split; [assumption|].
    injection Hnew' as -> ->. cbn in Hname, Hgroup. split; congruence.
  - exfalso. apply Hfree. apply name_taken_current_version.
    exists p', r'. split; [assumption|].
    injection Hnew as -> ->. cbn in Hname, Hgroup. split; congruence.
  - congruence.
Qed.

Lemma names_unique_modify (current_user id : Z) (name : string)
    (structure : pyval) (description : string)
    (error_if_not_found commit : bool) (s : db) :
  db_invariant s -> names_unique s ->
  names_unique
    (snd (PluginParameterTypeIdService_modify current_user id name structure
            description error_if_not_found commit s)).
Proof.
  intros Hinv Huniq.
  destruct (modify_outcomes current_user id name structure description
              error_if_not_found commit s)
    as [[-> _]|[current [resource [Hget [Hname ->]]]]]; [exact Huniq|].
  destruct (get_by_id_current_version Hget) as [Hcur Hrid].
  assert (Hres : In resource (resources s)) by apply Hcur.
  cbn [snd].
  assert (Hclash :
            forall p r r0,
              current_version s p r ->
              Resource.resource_id r <> Resource.resource_id resource ->
              In r0 (resources s) ->
              Resource.resource_id r0 = Resource.resource_id resource ->
              PluginTaskParameterType.name p = name ->
              Resource.group_id r = Resource.group_id r0 -> False).
  { intros p r r0 Hcv Hne Hr0 Hid0 Hn Hg.
    assert (r0 = resource) by now apply (resource_by_id_unique Hinv).
    subst r0.
    destruct Hname as [Hsame|Hfree].
    - apply Hne. apply (Huniq p r current resource); auto. congruence.
    - apply Hfree. apply name_taken_current_version. exists p, r. auto. }
  intros p r p' r' Hcv Hcv' Hn Hg.
  apply (current_version_add_snapshot resource name structure description
           current_user p r Hinv) in Hcv.
  apply (current_version_add_snapshot resource name structure description
           current_user p' r' Hinv) in Hcv'.
  destruct Hcv as [[Hne Hold]|[Heq [Hp [Hr _]]]];
    destruct Hcv' as [[Hne' Hold']|[Heq' [Hp' [Hr' _]]]].
  - now apply (Huniq p r p' r').
  - exfalso. subst p'. cbn in Hn. apply (Hclash p r r'); auto.
  - exfalso. subst p. cbn in Hn. apply (Hclash p' r' r); auto.
  - congruence.
Qed.

Lemma names_unique_delete (id : Z) (s : db) :
  names_unique s ->
  names_unique (snd (PluginParameterTypeIdService_delete id s)).
Proof.
  intros Huniq.
  destruct (delete_outcomes id s) as [->|[found [_ [_ [_ [_ ->]]]]]];
    [exact Huniq|].
  cbn [snd]. intros p r p' r' Hcv Hcv'.
  apply current_version_add_resource_lock in Hcv as [Hcv _].
  apply current_version_add_resource_lock in Hcv' as [Hcv' _].
  now apply Huniq.
Qed.

(** X3: the name checks of [create] and [modify] keep the names unique: in
    a session where no two plugin parameter types that are not deleted
    share a name within a group, this is still so after any call of
    [create], [modify] or [delete]. *)
Theorem services_keep_names_unique (current_user : Z) (name : string)
    (structure : pyval) (description : string) (group_id id : Z)
    (error_if_not_found commit : bool) (s : db) :
  db_invariant s -> names_unique s ->
  names_unique
    (snd (PluginParameterTypeService_create current_user name structure
            description group_id commit s))
  /\ names_unique
       (snd (PluginParameterTypeIdService_modify current_user id name
               structure description error_if_not_found commit s))
  /\ names_unique (snd (PluginParameterTypeIdService_delete id s)).
Proof.
  intros Hinv Huniq. split; [|split].
  - now apply names_unique_create.
  - now apply names_unique_modify.
  - now apply names_unique_delete.
Qed.

Lemma names_unique_sample_db0 : names_unique sample_db0.
Proof. intros p r p' r' [[] _]. Qed.

Lemma names_unique_sample_db : names_unique sample_db.
Proof.
  unfold sample_db. apply names_unique_create.
  - apply create_preserves_invariant. exact db_invariant_sample_db0.
  - apply names_unique_create;
      [exact db_invariant_sample_db0 | exact names_unique_sample_db0].
Qed.

Lemma services_keep_names_unique_witness :
  names_unique
    (snd (PluginParameterTypeIdService_modify 1 2 "changed_name" PNone
            "The shape of an image." true true sample_db)).
Proof.
  apply (@services_keep_names_unique 1 "changed_name" PNone
           "The shape of an image." 1 2 true true sample_db
           db_invariant_sample_db names_unique_sample_db).
Defined.

(** ** When the three mutating services succeed *)

Lemma create_free (current_user : Z) (name : string) (structure : pyval)
    (description : string) (group_id : Z) (commit : bool) (s : db)
    (group : Group.t) :
  ~ name_taken s name group_id ->
  In group (groups s) -> Group.group_id group = group_id ->
  exists found,
    Group.group_id found = group_id
    /\ PluginParameterTypeService_create current_user name structure
         description group_id commit s
       = (Ok (fst (add_resource_with_snapshot found name structure
                     description current_user s)),
          snd (add_resource_with_snapshot found name structure description
                 current_user s)).
Proof.
  intros Hfree Hgroup Hgid.
  unfold PluginParameterTypeService_create, sbind, squery.
  rewrite (get_by_name_free Hfree). unfold GroupIdService_get.
  destruct (find (fun g => Group.group_id g =? group_id) (groups s))
    as [found|] eqn:Hfind.
  - apply find_some in Hfind as [_ Hid]. apply Z.eqb_eq in Hid.
    exists found. split; [assumption|]. unfold sadd.
    destruct (add_resource_with_snapshot found name structure description
                current_user s) as [new s'].
    now destruct commit.
  - exfalso. apply (find_none _ _ Hfind) in Hgroup.
    rewrite Hgid, Z.eqb_refl in Hgroup. discriminate.
Qed.

Lemma modify_found (current_user id : Z) (name : string)
    (structure : pyval) (description : string)
    (error_if_not_found commit : bool) (s : db)
    (current : PluginTaskParameterType.t) (resource : Resource.t) :
  PluginParameterTypeIdService_get id error_if_not_found s
  = Ok (Some (current, resource)) ->
  name = PluginTaskParameterType.name current
  \/ ~ name_taken s name (Resource.group_id resource) ->
  PluginParameterTypeIdService_modify current_user id name structure
    description error_if_not_found commit s
  = (Ok (Some (fst (add_snapshot resource name structure description
                      current_user s))),
     snd (add_snapshot resource name structure description current_user s)).
Proof.
  intros Hget Hname.
  unfold PluginParameterTypeIdService_modify, sbind.
  unfold squery at 1. rewrite Hget. cbn [fst snd].
  assert (Hclash :
            (if negb (String.eqb name (PluginTaskParameterType.name current))
             then squery (PluginParameterTypeNameService_get name
                            (Resource.group_id resource) false)
             else sret None) s
            = (Ok None, s)).
  { destruct (String.eqb_spec name (PluginTaskParameterType.name current))
      as [Heq|Hne]; cbn [negb]; [reflexivity|].
    destruct Hname as [Heq|Hfree]; [contradiction|].
    unfold squery. now rewrite (get_by_name_free Hfree). }
  rewrite Hclash. unfold sadd.
  destruct (add_snapshot resource name structure description current_user s)
    as [new s1].
  now destruct commit.
Qed.

Lemma delete_live (s : db) (r : Resource.t) :
  In r (resources s) ->
  Resource.resource_type r = RESOURCE_TYPE ->
  is_deleted s (Resource.resource_id r) = false ->
  exists found,
    Resource.resource_id found = Resource.resource_id r
    /\ PluginParameterTypeIdService_delete (Resource.resource_id r) s
       = (Ok [ ("status", PStr "Success");
               ("plugin_parameter_type_id", PInt (Resource.resource_id r)) ],
          add_resource_lock "delete" found s).
Proof.
  intros Hin Htype Hlive.
  destruct (delete_outcomes (Resource.resource_id r) s)
    as [Hraise|[found [_ [Hid [_ [_ Hout]]]]]].
  - exfalso.
    unfold PluginParameterTypeIdService_delete, sbind, squery in Hraise.
    match type of Hraise with
    | context [find ?f (resources s)] =>
        destruct (find f (resources s)) as [found|] eqn:Hfind
    end; [discriminate|].
    apply (find_none _ _ Hfind) in Hin.
    rewrite Z.eqb_refl, Htype, Hlive in Hin. discriminate.
  - exists found. split; assumption.
Qed.

(** ** Looking up by name what was written *)

(** The lookup by name returns a current version with the name, of the
    group, as soon as it is the only one. *)
Lemma get_by_name_unique (s : db) (name : string) (group_id : Z)
    (flag : bool) (p : PluginTaskParameterType.t) (r : Resource.t) :
  current_version s p r ->
  PluginTaskParameterType.name p = name ->
  Resource.group_id r = group_id ->
  (forall p' r',
      current_version s p' r' ->
      PluginTaskParameterType.name p' = name ->
      Resource.group_id r' = group_id ->
      (p', r') = (p, r)) ->
  PluginParameterTypeNameService_get name group_id flag s = Ok (Some (p, r)).
Proof.
  intros [Hp [Hr [Hid [Hlive Hlatest]]]] Hname Hgroup Honly.
  unfold PluginParameterTypeNameService_get, scalars_first.
  erewrite hd_error_filter_unique; [reflexivity| | |].
  - apply in_join_resource. repeat split; auto.
  - cbn. rewrite Hname, String.eqb_refl, Hgroup, Z.eqb_refl, Hlive. cbn.
    now apply is_latest_iff.
  - intros [p' r'] Hin Hcond.
    apply in_join_resource in Hin as [Hp' [Hr' Hid']].
    apply andb_prop in Hcond as [Hcond Hlatest'].
    apply andb_prop in Hcond as [Hcond Hlive'].
    apply andb_prop in Hcond as [Hname' Hgroup'].
    apply String.eqb_eq in Hname'. apply Z.eqb_eq in Hgroup'.
    apply is_latest_iff in Hlatest'. apply negb_true_iff in Hlive'.
    apply Honly; auto. unfold current_version. repeat split; assumption.
Qed.

(** X4: after a successful [create] the lookup by name, in the group,
    returns exactly the plugin parameter type that [create] returned. *)
Theorem create_then_get_by_name (current_user : Z) (name : string)
    (structure : pyval) (description : string) (group_id : Z)
    (commit flag : bool) (s : db) (created : plugin_parameter_type)
    (s' : db) :
  db_invariant s ->
  PluginParameterTypeService_create current_user name structure description
    group_id commit s
  = (Ok created, s') ->
  PluginParameterTypeNameService_get name group_id flag s' = Ok (Some created)
  /\ PluginTaskParameterType.name (fst created) = name
  /\ PluginTaskParameterType.structure (fst created) = structure
  /\ PluginTaskParameterType.description (fst created) = description
  /\ Resource.group_id (snd created) = group_id.
Proof.
  intros Hinv Hcreate.
  destruct (create_outcomes current_user name structure description group_id
              commit s) as [[_ [e He]]|[group [_ [Hgid [Hfree Hout]]]]].
  - rewrite Hcreate in He. discriminate.
  - rewrite Hcreate in Hout.
    pose proof (f_equal fst Hout) as Hc. pose proof (f_equal snd Hout) as Hs.
    cbn [fst snd] in Hc, Hs.
    assert (Hcreated :
              created
              = fst (add_resource_with_snapshot group name structure
                       description current_user s)) by congruence.
    clear Hc Hout Hcreate. subst s'.
    split; [|rewrite Hcreated; cbn; repeat split; assumption].
    destruct created as [p0 r0].
    apply get_by_name_unique.
    + apply (current_version_add_resource_with_snapshot group name structure
               description current_user p0 r0 Hinv).
      right. exact Hcreated.
    + pose proof (f_equal fst Hcreated) as Hp0. cbn [fst] in Hp0.
      now rewrite Hp0.
    + pose proof (f_equal snd Hcreated) as Hr0. cbn [snd] in Hr0.
      now rewrite Hr0.
    + intros p' r' Hcv Hname Hgroup.
      apply (current_version_add_resource_with_snapshot group name structure
               description current_user p' r' Hinv) in Hcv.
      destruct Hcv as [Hold|Heq]; [|now rewrite Heq, Hcreated].
      exfalso. apply Hfree. apply name_taken_current_version.
      exists p', r'. auto.
Qed.

Lemma create_then_get_by_name_witness :
  PluginParameterTypeNameService_get "integer" 1 true
    (snd (PluginParameterTypeService_create 1 "integer" PNone
            "A whole number." 1 true sample_db0))
  = Ok (Some (PluginTaskParameterType.mk 1 1 "integer" PNone
                "A whole number." 1,
              Resource.mk 1 RESOURCE_TYPE 1)).
Proof.
  apply (@create_then_get_by_name 1 "integer" PNone "A whole number." 1 true
           true sample_db0
           (PluginTaskParameterType.mk 1 1 "integer" PNone "A whole number."
              1, Resource.mk 1 RESOURCE_TYPE 1)
           _ db_invariant_sample_db0).
  reflexivity.
Defined.

(** X5: renaming frees the old name. In a session with unique names, after
    [modify] gave a plugin parameter type a new name that was free in its
    group, the lookup by the new name returns the new snapshot, and the old
    name is taken by nothing in the group any more. *)
Theorem rename_frees_old_name (current_user id : Z) (name : string)
    (structure : pyval) (description : string)
    (error_if_not_found commit flag : bool) (s : db)
    (current : PluginTaskParameterType.t) (resource : Resource.t) :
  db_invariant s -> names_unique s ->
  PluginParameterTypeIdService_get id error_if_not_found s
  = Ok (Some (current, resource)) ->
  name <> PluginTaskParameterType.name current ->
  ~ name_taken s name (Resource.group_id resource) ->
  let outcome :=
    PluginParameterTypeIdService_modify current_user id name structure
      description error_if_not_found commit s in
  exists renamed,
    fst outcome = Ok (Some (renamed, resource))
    /\ PluginTaskParameterType.name renamed = name
    /\ PluginParameterTypeNameService_get name (Resource.group_id resource)
         flag (snd outcome)
       = Ok (Some (renamed, resource))
    /\ ~ name_taken (snd outcome) (PluginTaskParameterType.name current)
           (Resource.group_id resource).
Proof.
  intros Hinv Huniq Hget Hdiff Hfree outcome.
  destruct (get_by_id_current_version Hget) as [Hcur Hrid].
  assert (Hres : In resource (resources s)) by apply Hcur.
  assert (Hlive : is_deleted s (Resource.resource_id resource) = false)
    by apply Hcur.
  pose proof (@modify_found current_user id name structure description
                error_if_not_found commit s current resource Hget
                (or_intror Hfree)) as Hout.
  fold outcome in Hout. rewrite Hout. cbn [fst snd].
    set (new := fst (add_snapshot resource name structure description
                       current_user s)).
  exists (fst new). split; [reflexivity|]. split; [reflexivity|].
  split.
  - apply get_by_name_unique; try reflexivity.
    + apply (current_version_add_snapshot resource name structure
               description current_user (fst new) resource Hinv).
      right. repeat split; auto.
    + intros p' r' Hcv Hname Hgroup.
      apply (current_version_add_snapshot resource name structure
               description current_user p' r' Hinv) in Hcv.
      destruct Hcv as [[_ Hold]|[Heq [-> [Hr' _]]]].
      * exfalso. apply Hfree. apply name_taken_current_version.
        exists p', r'. auto.
      * f_equal. now apply (resource_by_id_unique Hinv).
  - intros Htaken. apply name_taken_current_version in Htaken
      as [p' [r' [Hcv [Hname Hgroup]]]].
    apply (current_version_add_snapshot resource name structure
             description current_user p' r' Hinv) in Hcv.
    destruct Hcv as [[Hne Hold]|[_ [-> _]]].
    + apply Hne. now apply (Huniq p' r' current resource).
    + cbn in Hname. congruence.
Qed.

Lemma rename_frees_old_name_witness :
  exists renamed,
    PluginParameterTypeNameService_get "changed_name" 1 true
      (snd (PluginParameterTypeIdService_modify 1 2 "changed_name" PNone
              "The shape of an image." true true sample_db))
    = Ok (Some (renamed, Resource.mk 2 RESOURCE_TYPE 1))
    /\ ~ name_taken
           (snd (PluginParameterTypeIdService_modify 1 2 "changed_name" PNone
                   "The shape of an image." true true sample_db))
           "image_shape" 1.
Proof.
  destruct (@rename_frees_old_name 1 2 "changed_name" PNone
              "The shape of an image." true true true sample_db
              (PluginTaskParameterType.mk 2 2 "image_shape" PNone
                 "The shape of an image." 1)
              (Resource.mk 2 RESOURCE_TYPE 1)
              db_invariant_sample_db names_unique_sample_db)
    as [renamed [_ [_ [Hget Hfree]]]].
  - reflexivity.
  - discriminate.
  - intros [p [r [Hp [_ [_ [Hname _]]]]]].
    vm_compute in Hp. destruct Hp as [<-|[<-|[]]]; discriminate Hname.
  - exists renamed. split; [exact Hget | exact Hfree].
Defined.

(** X6: deleting frees the name. In a session with unique names, after
    [delete] of a plugin parameter type its name is taken by nothing in its
    group, so a [create] with that name in that group succeeds. *)
Theorem delete_frees_name (current_user id : Z) (structure : pyval)
    (description : string) (error_if_not_found commit : bool) (s : db)
    (current : PluginTaskParameterType.t) (resource : Resource.t)
    (group : Group.t) :
  db_invariant s -> names_unique s ->
  PluginParameterTypeIdService_get id error_if_not_found s
  = Ok (Some (current, resource)) ->
  Resource.resource_type resource = RESOURCE_TYPE ->
  In group (groups s) ->
  Group.group_id group = Resource.group_id resource ->
  let name := PluginTaskParameterType.name current in
  let group_id := Resource.group_id resource in
  let s1 := snd (PluginParameterTypeIdService_delete id s) in
  fst (PluginParameterTypeIdService_delete id s)
  = Ok [ ("status", PStr "Success"); ("plugin_parameter_type_id", PInt id) ]
  /\ ~ name_taken s1 name group_id
  /\ exists created s2,
       PluginParameterTypeService_create current_user name structure
         description group_id commit s1
       = (Ok created, s2)
       /\ PluginTaskParameterType.name (fst created) = name
       /\ Resource.group_id (snd created) = group_id
       /\ Resource.resource_id (snd created) <> id.
Proof.
  intros Hinv Huniq Hget Htype Hgroup Hgid name group_id s1.
  destruct (get_by_id_current_version Hget) as [Hcur Hrid].
  assert (Hres : In resource (resources s)) by apply Hcur.
  assert (Hlive : is_deleted s (Resource.resource_id resource) = false)
    by apply Hcur.
  destruct (@delete_live s resource Hres Htype Hlive)
    as [found [Hfound Hdelete]].
  rewrite Hrid in Hdelete, Hfound.
  unfold s1. rewrite Hdelete. cbn [fst snd].
  split; [reflexivity|].
  assert (Hfree : ~ name_taken (add_resource_lock "delete" found s) name
                    group_id).
  { intros Htaken. apply name_taken_current_version in Htaken
      as [p [r [Hcv [Hname Hg]]]].
    apply current_version_add_resource_lock in Hcv as [Hcv Hne].
    apply Hne. rewrite Hfound, <- Hrid.
    now apply (Huniq p r current resource). }
  split; [exact Hfree|].
  destruct (@create_free current_user name structure description group_id
              commit (add_resource_lock "delete" found s) group Hfree Hgroup
              Hgid) as [found_group [Hfg Hcreate]].
  eexists. eexists. split; [exact Hcreate|].
  cbn. split; [reflexivity|]. split; [exact Hfg|].
  rewrite <- Hrid. intros Heq.
  apply (@resource_issued_not_next s resource Hinv Hres).
  now rewrite <- Heq.
Qed.

Lemma delete_frees_name_witness :
  exists created s2,
    PluginParameterTypeService_create 1 "image_shape" PNone "Once more." 1
      true sample_db_deleted
    = (Ok created, s2)
    /\ Resource.resource_id (snd created) <> 2.
Proof.
  destruct (@delete_frees_name 1 2 PNone "Once more." true true sample_db
              (PluginTaskParameterType.mk 2 2 "image_shape" PNone
                 "The shape of an image." 1)
              (Resource.mk 2 RESOURCE_TYPE 1) sample_group
              db_invariant_sample_db names_unique_sample_db)
    as [_ [_ [created [s2 [Hcreate [_ [_ Hid]]]]]]].
  - reflexivity.
  - reflexivity.
  - now left.
  - reflexivity.
  - exists created, s2. split; [exact Hcreate | exact Hid].
Defined.

(** ** What a listing holds *)

Lemma NoDup_map_inj_on {A B : Type} (f : A -> B) (l : list A) :
  NoDup l ->
  (forall x y, In x l -> In y l -> f x = f y -> x = y) ->
  NoDup (map f l).
Proof.
  induction 1 as [|x l Hnotin Hnd IH]; intros Hinj; simpl; constructor.
  - intros Hin. apply in_map_iff in Hin as [y [Heq Hy]].
    assert (y = x) by (apply Hinj; simpl; auto). subst y. contradiction.
  - apply IH. intros a b Ha Hb. apply Hinj; simpl; auto.
Qed.

Lemma in_latest_plugin_parameter_types (group_filter : option Z) (s : db)
    (p : PluginTaskParameterType.t) (r : Resource.t) :
  In (p, r) (latest_plugin_parameter_types group_filter s)
  <-> current_version s p r
      /\ passes_group_filter group_filter (Resource.group_id r) = true.
Proof.
  unfold latest_plugin_parameter_types, current_version.
  rewrite filter_In, in_join_resource, !andb_true_iff, negb_true_iff,
    is_latest_iff.
  assert (Hfilter :
            forallb (fun f : Resource.t -> bool => f r)
              match group_filter with
              | Some g => [fun r0 => Resource.group_id r0 =? g]
              | None => []
              end
            = passes_group_filter group_filter (Resource.group_id r)).
  { destruct group_filter; cbn; [apply andb_true_r | reflexivity]. }
  rewrite Hfilter. tauto.
Qed.

Lemma current_version_unique (s : db) (p p' : PluginTaskParameterType.t)
    (r r' : Resource.t) :
  db_invariant s ->
  current_version s p r -> current_version s p' r' ->
  Resource.resource_id r = Resource.resource_id r' ->
  (p, r) = (p', r').
Proof.
  intros Hinv [Hp [Hr [Hid [_ Hlatest]]]] [Hp' [Hr' [Hid' [_ Hlatest']]]] Heq.
  rewrite Heq in Hlatest. rewrite Hlatest' in Hlatest.
  injection Hlatest as Hsid.
  f_equal.
  - symmetry. now apply (snapshot_by_id_unique Hinv).
  - now apply (resource_by_id_unique Hinv).
Qed.

(** X7: a listing holds exactly the current versions (latest snapshot of a
    resource that is not deleted) that pass the group filter, and never two
    rows of the same resource. *)
Theorem listing_one_row_per_resource (group_filter : option Z) (s : db) :
  db_invariant s ->
  NoDup (map (fun row : plugin_parameter_type =>
                Resource.resource_id (snd row))
           (latest_plugin_parameter_types group_filter s))
  /\ forall p r,
       In (p, r) (latest_plugin_parameter_types group_filter s)
       <-> current_version s p r
           /\ passes_group_filter group_filter (Resource.group_id r) = true.
Proof.
  intros Hinv. split; [|apply in_latest_plugin_parameter_types].
  apply NoDup_map_inj_on.
  - now apply NoDup_latest_plugin_parameter_types.
  - intros [p r] [p' r'] Hin Hin' Heq. cbn in Heq.
    apply in_latest_plugin_parameter_types in Hin as [Hcv _].
    apply in_latest_plugin_parameter_types in Hin' as [Hcv' _].
    now apply (current_version_unique Hinv).
Qed.

Lemma listing_one_row_per_resource_witness :
  NoDup (map (fun row : plugin_parameter_type =>
                Resource.resource_id (snd row))
           (latest_plugin_parameter_types (Some 1)
              (snd (PluginParameterTypeIdService_modify 1 2 "changed_name"
                      PNone "The shape of an image." true true sample_db)))).
Proof.
  apply (@listing_one_row_per_resource (Some 1)
           (snd (PluginParameterTypeIdService_modify 1 2 "changed_name"
                   PNone "The shape of an image." true true sample_db))).
  apply modify_preserves_invariant. exact db_invariant_sample_db.
Defined.


(** ** How the three services change the total of a listing *)

Lemma in_other_rows (id : Z) (rows : list plugin_parameter_type)
    (row : plugin_parameter_type) :
  In row (other_rows id rows)
  <-> In row rows /\ Resource.resource_id (snd row) <> id.
Proof.
  unfold other_rows. rewrite filter_In, negb_true_iff, Z.eqb_neq. tauto.
Qed.

Lemma NoDup_optional_row (present : bool) (row : plugin_parameter_type)
    (rows : list plugin_parameter_type) :
  NoDup rows -> ~ In row rows ->
  NoDup ((if present then [row] else []) ++ rows).
Proof.
  intros Hnd Hnotin. destruct present; cbn; [now constructor | exact Hnd].
Qed.

Lemma in_optional_row (present : bool) (row x : plugin_parameter_type)
    (rows : list plugin_parameter_type) :
  In x ((if present then [row] else []) ++ rows)
  <-> (present = true /\ x = row) \/ In x rows.
Proof.
  destruct present; cbn; intuition congruence.
Qed.

Lemma length_optional_row (present : bool) (row : plugin_parameter_type)
    (rows : list plugin_parameter_type) :
  Z.of_nat (List.length ((if present then [row] else []) ++ rows))
  = (if present then 1 else 0) + Z.of_nat (List.length rows).
Proof.
  destruct present; simpl app; simpl List.length; lia.
Qed.

Lemma latest_split (group_filter : option Z) (s : db)
    (current : PluginTaskParameterType.t) (resource : Resource.t) :
  db_invariant s -> current_version s current resource ->
  Permutation (latest_plugin_parameter_types group_filter s)
    ((if passes_group_filter group_filter (Resource.group_id resource)
      then [(current, resource)] else [])
     ++ other_rows (Resource.resource_id resource)
          (latest_plugin_parameter_types group_filter s)).
Proof.
  intros Hinv Hcur.
  assert (Hnd : NoDup (latest_plugin_parameter_types group_filter s))
    by now apply NoDup_latest_plugin_parameter_types.
  apply NoDup_Permutation; [exact Hnd| |].
  - apply NoDup_optional_row; [now apply NoDup_filter|].
    rewrite in_other_rows. cbn. tauto.
  - intros [p r]. rewrite in_optional_row, in_other_rows.
    rewrite in_latest_plugin_parameter_types. cbn [snd]. split.
    + intros [Hcv Hpass].
      destruct (Z.eq_dec (Resource.resource_id r)
                  (Resource.resource_id resource)) as [Heq|Hne].
      * left.
        assert (Hrow : (p, r) = (current, resource))
          by now apply (current_version_unique Hinv).
        split; [|exact Hrow]. now injection Hrow as _ <-.
      * right. tauto.
    + intros [[Hpass Hrow]|[Hin _]]; [|exact Hin].
      injection Hrow as -> ->. tauto.
Qed.

Lemma latest_after_create (group_filter : option Z) (group : Group.t)
    (name : string) (structure : pyval) (description : string) (creator : Z)
    (s : db) :
  db_invariant s ->
  Permutation
    (latest_plugin_parameter_types group_filter
       (snd (add_resource_with_snapshot group name structure description
               creator s)))
    ((if passes_group_filter group_filter (Group.group_id group)
      then [fst (add_resource_with_snapshot group name structure description
                   creator s)]
      else [])
     ++ latest_plugin_parameter_types group_filter s).
Proof.
  intros Hinv.
  apply NoDup_Permutation.
  - apply NoDup_latest_plugin_parameter_types.
    now apply add_resource_with_snapshot_invariant.
  - apply NoDup_optional_row;
      [now apply NoDup_latest_plugin_parameter_types|].
    remember (fst (add_resource_with_snapshot group name structure
                     description creator s)) as new eqn:Hnew.
    destruct new as [p0 r0].
    rewrite in_latest_plugin_parameter_types. intros [[_ [Hr _]] _].
    apply (f_equal snd) in Hnew. cbn in Hnew. subst r0.
    now apply (@resource_issued_not_next s _ Hinv Hr).
  - intros [p r]. rewrite in_optional_row.
    rewrite !in_latest_plugin_parameter_types.
    rewrite (@current_version_add_resource_with_snapshot group name
               structure description creator s p r Hinv).
    split.
    + intros [[Hcv|Hnew] Hpass]; [right; tauto|left].
      split; [|exact Hnew].
      cbn in Hnew. injection Hnew as _ Hr. now rewrite Hr in Hpass.
    + intros [[Hpass Hnew]|[Hcv Hpass]]; [|tauto].
      split; [now right|].
      cbn in Hnew. injection Hnew as _ Hr. now rewrite Hr.
Qed.

Lemma latest_after_modify (group_filter : option Z) (resource : Resource.t)
    (name : string) (structure : pyval) (description : string) (creator : Z)
    (s : db) :
  db_invariant s ->
  In resource (resources s) ->
  is_deleted s (Resource.resource_id resource) = false ->
  Permutation
    (latest_plugin_parameter_types group_filter
       (snd (add_snapshot resource name structure description creator s)))
    ((if passes_group_filter group_filter (Resource.group_id resource)
      then [fst (add_snapshot resource name structure description creator s)]
      else [])
     ++ other_rows (Resource.resource_id resource)
          (latest_plugin_parameter_types group_filter s)).
Proof.
  intros Hinv Hres Hlive.
  apply NoDup_Permutation.
  - apply NoDup_latest_plugin_parameter_types.
    now apply add_snapshot_invariant.
  - apply NoDup_optional_row.
    + apply NoDup_filter. now apply NoDup_latest_plugin_parameter_types.
    + rewrite in_other_rows. cbn. tauto.
  - intros [p r]. rewrite in_optional_row, in_other_rows.
    rewrite !in_latest_plugin_parameter_types.
    rewrite (@current_version_add_snapshot resource name structure
               description creator s p r Hinv).
    cbn [fst snd add_snapshot]. split.
    + intros [[[Hne Hcv]|[Heq [Hp [Hr _]]]] Hpass]; [right; tauto|left].
      assert (r = resource) by now apply (resource_by_id_unique Hinv).
      subst r p. tauto.
    + intros [[Hpass Hrow]|[[Hcv Hpass] Hne]]; [|tauto].
      injection Hrow as -> ->. split; [|exact Hpass]. right. tauto.
Qed.

Lemma latest_after_delete (group_filter : option Z) (found : Resource.t)
    (s : db) :
  db_invariant s -> In found (resources s) ->
  Permutation
    (latest_plugin_parameter_types group_filter
       (add_resource_lock "delete" found s))
    (other_rows (Resource.resource_id found)
       (latest_plugin_parameter_types group_filter s)).
Proof.
  intros Hinv Hfound.
  apply NoDup_Permutation.
  - apply NoDup_latest_plugin_parameter_types.
    now apply add_resource_lock_invariant.
  - apply NoDup_filter. now apply NoDup_latest_plugin_parameter_types.
  - intros [p r]. rewrite in_other_rows.
    rewrite !in_latest_plugin_parameter_types.
    rewrite current_version_add_resource_lock. cbn [snd]. tauto.
Qed.


(** X8: a successful [create] in group [group_id] raises the total that
    [PluginParameterTypeService.get] reports by one for a listing of that
    group or of all groups, and leaves the total of any other group's
    listing as it was. *)
Theorem create_adds_one_to_total (current_user : Z) (name : string)
    (structure : pyval) (description : string) (group_id : Z)
    (commit : bool) (s : db) (created : plugin_parameter_type) (s' : db)
    (group_filter : option Z) (page_index page_length : Z) :
  db_invariant s ->
  PluginParameterTypeService_create current_user name structure description
    group_id commit s
  = (Ok created, s') ->
  exists rows rows' total,
    PluginParameterTypeService_get group_filter "" page_index page_length s
    = Ok (rows, total)
    /\ PluginParameterTypeService_get group_filter "" page_index page_length
         s'
       = Ok (rows',
             (if passes_group_filter group_filter group_id then 1 else 0)
             + total).
Proof.
  intros Hinv Hcreate.
  destruct (create_outcomes current_user name structure description group_id
              commit s) as [[_ [e He]]|[group [_ [Hgid [_ Hout]]]]].
  { rewrite Hcreate in He. discriminate. }
  rewrite Hcreate in Hout. apply (f_equal snd) in Hout. cbn [snd] in Hout.
  rewrite !service_get_page. eexists. eexists. eexists.
  split; [reflexivity|]. f_equal. apply f_equal.
  rewrite Hout, <- Hgid.
  rewrite (Permutation_length
             (@latest_after_create group_filter group name structure
                description current_user s Hinv)).
  apply length_optional_row.
Qed.

Lemma create_adds_one_to_total_witness :
  exists rows rows' total,
    PluginParameterTypeService_get (Some 1) "" 0 10 sample_db0
    = Ok (rows, total)
    /\ PluginParameterTypeService_get (Some 1) "" 0 10
         (snd (PluginParameterTypeService_create 1 "integer" PNone
                 "A whole number." 1 true sample_db0))
       = Ok (rows', 1 + total).
Proof.
  apply (@create_adds_one_to_total 1 "integer" PNone "A whole number." 1 true
           sample_db0
           (PluginTaskParameterType.mk 1 1 "integer" PNone "A whole number."
              1, Resource.mk 1 RESOURCE_TYPE 1)
           _ (Some 1) 0 10 db_invariant_sample_db0).
  reflexivity.
Defined.

(** X9: [modify] never changes the total that
    [PluginParameterTypeService.get] reports, whatever the group filter:
    the new snapshot replaces the resource's previous version in every
    listing. *)
Theorem modify_keeps_total (current_user id : Z) (name : string)
    (structure : pyval) (description : string)
    (error_if_not_found commit : bool) (s : db)
    (group_filter : option Z) (page_index page_length : Z) :
  db_invariant s ->
  let s' :=
    snd (PluginParameterTypeIdService_modify current_user id name structure
           description error_if_not_found commit s) in
  exists rows rows' total,
    PluginParameterTypeService_get group_filter "" page_index page_length s
    = Ok (rows, total)
    /\ PluginParameterTypeService_get group_filter "" page_index page_length
         s'
       = Ok (rows', total).
Proof.
  intros Hinv s'. unfold s'.
  rewrite !service_get_page. eexists. eexists. eexists.
  split; [reflexivity|]. f_equal. apply f_equal.
  destruct (modify_outcomes current_user id name structure description
              error_if_not_found commit s)
    as [[Hsame _]|[current [resource [Hget [_ Hout]]]]].
  { now rewrite Hsame. }
  rewrite Hout. cbn [snd].
  destruct (get_by_id_current_version Hget) as [Hcur _].
  assert (Hres : In resource (resources s)) by apply Hcur.
  assert (Hlive : is_deleted s (Resource.resource_id resource) = false)
    by apply Hcur.
  rewrite (Permutation_length
             (@latest_after_modify group_filter resource name structure
                description current_user s Hinv Hres Hlive)).
  rewrite (Permutation_length
             (@latest_split group_filter s current resource Hinv Hcur)).
  now rewrite !length_optional_row.
Qed.

Lemma modify_keeps_total_witness :
  exists rows rows' total,
    PluginParameterTypeService_get None "" 0 10 sample_db = Ok (rows, total)
    /\ PluginParameterTypeService_get None "" 0 10
         (snd (PluginParameterTypeIdService_modify 1 2 "changed_name" PNone
                 "The shape of an image." true true sample_db))
       = Ok (rows', total).
Proof.
  exact (@modify_keeps_total 1 2 "changed_name" PNone
           "The shape of an image." true true sample_db None 0 10
           db_invariant_sample_db).
Defined.

(** X10: deleting a plugin parameter type that [get] by id finds lowers the
    total that [PluginParameterTypeService.get] reports by one for a listing
    of its group or of all groups, and leaves the total of any other
    group's listing as it was. *)
Theorem delete_takes_one_from_total (id : Z) (error_if_not_found : bool)
    (s : db) (current : PluginTaskParameterType.t) (resource : Resource.t)
    (response : dict string pyval) (s' : db)
    (group_filter : option Z) (page_index page_length : Z) :
  db_invariant s ->
  PluginParameterTypeIdService_get id error_if_not_found s
  = Ok (Some (current, resource)) ->
  PluginParameterTypeIdService_delete id s = (Ok response, s') ->
  exists rows rows' total,
    PluginParameterTypeService_get group_filter "" page_index page_length s
    = Ok (rows,
          (if passes_group_filter group_filter (Resource.group_id resource)
           then 1 else 0)
          + total)
    /\ PluginParameterTypeService_get group_filter "" page_index page_length
         s'
       = Ok (rows', total).
Proof.
  intros Hinv Hget Hdelete.
  destruct (get_by_id_current_version Hget) as [Hcur Hrid].
  destruct (delete_outcomes id s)
    as [Hraise|[found [Hfound [Hfid [_ [_ Hout]]]]]].
  { rewrite Hdelete in Hraise. discriminate. }
  rewrite Hdelete in Hout. apply (f_equal snd) in Hout. cbn [snd] in Hout.
  assert (Hsame : found = resource).
  { apply (resource_by_id_unique Hinv); [exact Hfound|apply Hcur|].
    now rewrite Hfid, Hrid. }
  subst found s'.
  rewrite !service_get_page. eexists. eexists. eexists.
  split; [|reflexivity]. f_equal. apply f_equal.
  rewrite (Permutation_length
             (@latest_after_delete group_filter resource s Hinv Hfound)).
  rewrite (Permutation_length
             (@latest_split group_filter s current resource Hinv Hcur)).
  apply length_optional_row.
Qed.

Lemma delete_takes_one_from_total_witness :
  exists rows rows' total,
    PluginParameterTypeService_get (Some 1) "" 0 10 sample_db
    = Ok (rows, 1 + total)
    /\ PluginParameterTypeService_get (Some 1) "" 0 10 sample_db_deleted
       = Ok (rows', total).
Proof.
  apply (@delete_takes_one_from_total 2 true sample_db
           (PluginTaskParameterType.mk 2 2 "image_shape" PNone
              "The shape of an image." 1)
           (Resource.mk 2 RESOURCE_TYPE 1)
           [ ("status", PStr "Success");
             ("plugin_parameter_type_id", PInt 2) ]
           sample_db_deleted (Some 1) 0 10 db_invariant_sample_db).
  - reflexivity.
  - reflexivity.
Defined.


(** ** The query string of a paging link *)

Lemma count_char_app (c : ascii) (a b : string) :
  count_char c (a ++ b) = (count_char c a + count_char c b)%nat.
Proof.
  induction a as [|x a IH]; cbn [append count_char]; [reflexivity|].
  rewrite IH. lia.
Qed.

Lemma always_safe_hex_digit (n : nat) : always_safe (hex_digit n) = true.
Proof. do 15 (destruct n as [|n]; [reflexivity|]). reflexivity. Qed.

Lemma written_by_quote_plus_safe (c a : ascii) :
  written_by_quote_plus c = false -> always_safe a = true ->
  Ascii.eqb c a = false.
Proof.
  intros Hc Ha. destruct (Ascii.eqb_spec c a) as [->|]; [|reflexivity].
  unfold written_by_quote_plus in Hc. rewrite Ha in Hc. discriminate.
Qed.

Lemma count_char_quote_plus (c : ascii) (s : string) :
  written_by_quote_plus c = false -> count_char c (quote_plus s) = 0%nat.
Proof.
  intros Hc. induction s as [|a s IH]; [reflexivity|].
  cbn [quote_plus].
  assert (Hplus : Ascii.eqb c "+" = false).
  { unfold written_by_quote_plus in Hc.
    now destruct (always_safe c), (Ascii.eqb c "+"). }
  assert (Hpercent : Ascii.eqb c "%" = false).
  { unfold written_by_quote_plus in Hc.
    now destruct (always_safe c), (Ascii.eqb c "+"), (Ascii.eqb c "%"). }
  destruct (always_safe a) eqn:Ha.
  - cbn [count_char]. now rewrite (@written_by_quote_plus_safe c a Hc Ha), IH.
  - destruct (Ascii.eqb a " ").
    + cbn [count_char]. now rewrite Hplus, IH.
    + cbn [count_char].
      rewrite Hpercent, IH.
      rewrite (@written_by_quote_plus_safe c _ Hc
                 (always_safe_hex_digit (nat_of_ascii a / 16))).
      now rewrite (@written_by_quote_plus_safe c _ Hc
                     (always_safe_hex_digit (nat_of_ascii a mod 16))).
Qed.

Lemma count_char_concat (c : ascii) (sep : string) (l : list string) :
  count_char c (String.concat sep l)
  = (list_sum (map (count_char c) l)
     + Nat.pred (List.length l) * count_char c sep)%nat.
Proof.
  induction l as [|x l IH]; [reflexivity|].
  destruct l as [|y l].
  - cbn. lia.
  - change (String.concat sep (x :: y :: l))
      with (x ++ sep ++ String.concat sep (y :: l)).
    rewrite !count_char_app, IH.
    change (list_sum (map (count_char c) (x :: y :: l)))
      with (count_char c x + list_sum (map (count_char c) (y :: l)))%nat.
    change (Nat.pred (List.length (x :: y :: l)))
      with (S (Nat.pred (List.length (y :: l)))).
    lia.
Qed.

Lemma count_char_urlencode (c : ascii) (query : dict string qval) :
  written_by_quote_plus c = false ->
  count_char c (urlencode query)
  = ((if Ascii.eqb c "=" then List.length query else 0)
     + (if Ascii.eqb c "&" then Nat.pred (List.length query) else 0))%nat.
Proof.
  intros Hc. unfold urlencode. rewrite count_char_concat, length_map.
  match goal with
  | |- (list_sum ?counts + _ = _)%nat =>
      assert (Hsum :
                list_sum counts
                = if Ascii.eqb c "=" then List.length query else 0%nat)
  end.
  { induction query as [|kv query IH].
    - now destruct (Ascii.eqb c "=").
    - cbn [map List.length]. unfold list_sum in *. cbn [fold_right].
      rewrite IH.
      rewrite !count_char_app, !count_char_quote_plus by exact Hc.
      cbn [count_char]. destruct (Ascii.eqb c "="); lia. }
  rewrite Hsum. cbn [count_char]. destruct (Ascii.eqb c "&"); lia.
Qed.

Lemma urlencode_not_empty (query : dict string qval) :
  query <> [] -> String.eqb (urlencode query) "" = false.
Proof.
  intros Hne.
  pose proof (@count_char_urlencode "=" query eq_refl) as Hcount.
  cbn [Ascii.eqb Bool.eqb] in Hcount.
  destruct (String.eqb_spec (urlencode query) "") as [Hempty|];
    [|reflexivity].
  rewrite Hempty in Hcount. destruct query; [contradiction|discriminate].
Qed.

Section QueryFacts.
Variable V1_ROOT : string.

(** X11: the query string of a paging link has one [key=value] pair for
    [index], one for [pageLength] and one for each truthy filter, whatever
    the search string and the draft type contain: apart from the [=] of each
    pair and the [&] between two pairs it holds only characters that
    [quote_plus] writes, so no [&], [=], [?], [#] or space of an argument
    reaches it. *)
Theorem build_paging_url_query_shape (route_prefix : string)
    (group_id : option Z) (search draft_type : option string)
    (index length : Z) :
  let pairs :=
    (2 + count_truthy [ truthy_int group_id; truthy_str search;
                        truthy_str draft_type ])%nat in
  exists query,
    build_paging_url V1_ROOT route_prefix group_id search draft_type index
      length
    = ("/" ++ V1_ROOT ++ "/" ++ route_prefix) ++ "?" ++ query
    /\ count_char "=" query = pairs
    /\ S (count_char "&" query) = pairs
    /\ forall c,
         written_by_quote_plus c = false ->
         c <> "="%char -> c <> "&"%char ->
         count_char c query = 0%nat.
Proof.
  intros pairs.
  set (query_params :=
         paging_query_params group_id search draft_type index length).
  assert (Hlen : List.length query_params = pairs).
  { unfold query_params, pairs, paging_query_params, count_truthy.
    destruct group_id as [g|]; cbn [truthy_int];
      [destruct (negb (g =? 0))|];
      (destruct search as [q|]; cbn [truthy_str];
         [destruct (negb (String.eqb q ""))|]);
      (destruct draft_type as [t|]; cbn [truthy_str];
         [destruct (negb (String.eqb t ""))|]);
      reflexivity. }
  assert (Hne : query_params <> []).
  { intros Hnil. rewrite Hnil in Hlen. discriminate. }
  exists (urlencode query_params). split; [|split; [|split]].
  - unfold build_paging_url, build_url. fold query_params.
    unfold urlunparse_path_query.
    destruct query_params as [|kv rest]; [contradiction|].
    now rewrite (urlencode_not_empty Hne).
  - rewrite count_char_urlencode by reflexivity.
    cbn [Ascii.eqb Bool.eqb andb]. rewrite Hlen. lia.
  - rewrite count_char_urlencode by reflexivity.
    cbn [Ascii.eqb Bool.eqb andb]. rewrite Hlen. reflexivity.
  - intros c Hc Heq Hamp. rewrite count_char_urlencode by exact Hc.
    apply Ascii.eqb_neq in Heq, Hamp. now rewrite Heq, Hamp.
Qed.
End QueryFacts.


(** ** The snapshots endpoint *)

Section SnapshotsEndpointFacts.
Variable V1_ROOT : string.
Variable A : Type.
Variable unquote : string -> string.

(** X12: [ResourceSnapshotsEndpoint.get] never returns a page. Its call of
    [build_paging_envelope] names every parameter but [draft_type], which
    has no default: once the query parameters are read and the service has
    answered, the call raises the [TypeError] of a missing argument. *)
Theorem ResourceSnapshotsEndpoint_get_raises (route_prefix : string)
    (build_fn : A -> pyval)
    (snapshots_service_get :
       Z -> pyval -> string -> pyval -> pyval -> result (list A * Z))
    (id : Z) (parsed_query_params : dict string pyval) :
  (forall envelope,
      ResourceSnapshotsEndpoint_get V1_ROOT unquote route_prefix build_fn
        snapshots_service_get id parsed_query_params
      <> Ok envelope)
  /\ (forall group_id search page_index page_length snapshots
        total_num_snapshots,
        dict_get "group_id" parsed_query_params = Some group_id ->
        dict_get "search" parsed_query_params = Some (PStr search) ->
        dict_get "index" parsed_query_params = Some page_index ->
        dict_get "page_length" parsed_query_params = Some page_length ->
        snapshots_service_get id group_id (unquote search) page_index
          page_length
        = Ok (snapshots, total_num_snapshots) ->
        ResourceSnapshotsEndpoint_get V1_ROOT unquote route_prefix build_fn
          snapshots_service_get id parsed_query_params
        = Raise (TypeError (MissingPositional ["draft_type"]))).
Proof.
  split.
  - intros envelope. unfold ResourceSnapshotsEndpoint_get, dict_item.
    destruct (dict_get "group_id" parsed_query_params) as [g|];
      [|discriminate].
    destruct (dict_get "search" parsed_query_params) as [q|];
      [|discriminate].
    cbn [bind_result].
    destruct q; try discriminate.
    destruct (dict_get "index" parsed_query_params) as [i|];
      [|discriminate].
    destruct (dict_get "page_length" parsed_query_params) as [l|];
      [|discriminate].
    cbn [bind_result].
    destruct (snapshots_service_get id g (unquote s) i l)
      as [[snapshots total]|e]; [|discriminate].
    cbn. discriminate.
  - intros g q i l snapshots total Hg Hq Hi Hl Hsvc.
    unfold ResourceSnapshotsEndpoint_get, dict_item.
    rewrite Hg, Hq, Hi, Hl. cbn [bind_result]. rewrite Hsvc. reflexivity.
Qed.
End SnapshotsEndpointFacts.

Lemma ResourceSnapshotsEndpoint_get_raises_witness :
  ResourceSnapshotsEndpoint_get "api/v1" (fun s => s) "queues"
    (build_queue "api/v1")
    (fun _ _ _ _ _ => Ok ([], 0)) 7
    [ ("group_id", PNone); ("search", PStr ""); ("index", PInt 0);
      ("page_length", PInt 10) ]
  = Raise (TypeError (MissingPositional ["draft_type"])).
Proof.
  apply (proj2 (@ResourceSnapshotsEndpoint_get_raises "api/v1" QueueDict.t
                  (fun s => s) "queues" (build_queue "api/v1")
                  (fun _ _ _ _ _ => Ok ([], 0)) 7
                  [ ("group_id", PNone); ("search", PStr "");
                    ("index", PInt 0); ("page_length", PInt 10) ])
           PNone "" (PInt 0) (PInt 10) [] 0);
    reflexivity.
Defined.


(** ** Passwords and the current user *)

Lemma sample_password_service_exact (p q : string) :
  verify sample_password_service p (hash sample_password_service q) = true
  <-> p = q.
Proof.
  cbn [verify hash sample_password_service].
  rewrite String.eqb_eq. split; [|now intros ->].
  intros H. cbn in H. now repeat (injection H as H).
Qed.

Section CurrentUserFacts.
Variable password_service : PasswordService.

(** X13: [change] fails without effect. A wrong current password raises
    [UserPasswordChangeError] whatever the new password is; every failure
    leaves the user object as it was; and a success means that the current
    password verified, the confirmation matched and the new password did
    not verify against the stored hash. *)
Theorem change_fails_without_effect (env : ambient) (user : User.t)
    (current_password new_password confirm_new_password : string)
    (commit : bool) :
  let outcome :=
    UserPasswordService_change password_service env user current_password
      new_password confirm_new_password commit in
  let stored := User.password user in
  (verify password_service current_password stored = false ->
   outcome = (Raise UserPasswordChangeError, user))
  /\ (forall e, fst outcome = Raise e ->
        snd outcome = user
        /\ (e = UserPasswordChangeError
            \/ e = UserPasswordChangeSamePasswordError))
  /\ (forall response, fst outcome = Ok response ->
        verify password_service current_password stored = true
        /\ new_password = confirm_new_password
        /\ verify password_service new_password stored = false
        /\ User.password (snd outcome) = hash password_service new_password).
Proof.
  cbv zeta. unfold UserPasswordService_change.
  destruct (verify password_service current_password (User.password user));
    cbn [negb].
  - destruct (String.eqb_spec new_password confirm_new_password) as [Heq|Hne];
      cbn [negb].
    + destruct (verify password_service new_password (User.password user));
        cbn [fst snd].
      * split; [discriminate|]. split; [|discriminate].
        intros e He. injection He as <-. auto.
      * split; [discriminate|]. split; [discriminate|]. auto.
    + cbn [fst snd]. split; [discriminate|]. split; [|discriminate].
      intros e He. injection He as <-. auto.
  - cbn [fst snd]. split; [reflexivity|]. split; [|discriminate].
    intros e He. injection He as <-. auto.
Qed.

(** X14: after a successful [change], with a password service whose
    [verify] accepts exactly the password that was hashed, the new
    password authenticates in every later request up to the new
    expiration date, also after [UserCurrentService.modify] renamed the
    user; the old password is refused; and changing to the same password
    again raises [UserPasswordChangeSamePasswordError]. *)
Theorem change_then_authenticate (env later : ambient) (user user' : User.t)
    (current_password new_password confirm_new_password : string)
    (commit : bool) (response : dict string pyval)
    (username email_address : string) :
  (forall p q,
      verify password_service p (hash password_service q) = true <-> p = q) ->
  UserPasswordService_change password_service env user current_password
    new_password confirm_new_password commit
  = (Ok response, user') ->
  now later <= now env + timedelta_days 365 ->
  let renamed :=
    UserCurrentService_modify later user' username email_address commit in
  UserPasswordService_authenticate password_service later new_password
    (User.password user') (User.password_expire_on user') true
  = Ok true
  /\ UserPasswordService_authenticate password_service later new_password
       (User.password renamed) (User.password_expire_on renamed) true
     = Ok true
  /\ UserPasswordService_authenticate password_service later
       current_password (User.password user')
       (User.password_expire_on user') true
     = Raise UserPasswordVerificationError
  /\ UserPasswordService_change password_service later user' new_password
       new_password new_password commit
     = (Raise UserPasswordChangeSamePasswordError, user').
Proof.
  intros Hexact Hchange Hlater renamed.
  unfold UserPasswordService_change in Hchange.
  destruct (verify password_service current_password (User.password user))
    eqn:Hcur; cbn [negb] in Hchange; [|discriminate].
  destruct (String.eqb new_password confirm_new_password);
    cbn [negb] in Hchange; [|discriminate].
  destruct (verify password_service new_password (User.password user))
    eqn:Hnew; [discriminate|].
  injection Hchange as _ Huser.
  assert (Hpw : User.password user' = hash password_service new_password)
    by now rewrite <- Huser.
  assert (Hexp : User.password_expire_on user'
                 = now env + timedelta_days DAYS_TO_EXPIRE_PASSWORD_DEFAULT)
    by now rewrite <- Huser.
  assert (Hself : verify password_service new_password
                    (hash password_service new_password) = true)
    by now apply Hexact.
  assert (Hold : verify password_service current_password
                   (hash password_service new_password) = false).
  { destruct (verify password_service current_password
                (hash password_service new_password)) eqn:Hv;
      [|reflexivity].
    apply Hexact in Hv. subst current_password. congruence. }
  assert (Hfresh : (now env + timedelta_days DAYS_TO_EXPIRE_PASSWORD_DEFAULT
                    <? now later) = false).
  { apply Z.ltb_ge. exact Hlater. }
  unfold renamed, UserCurrentService_modify, UserPasswordService_authenticate,
    UserPasswordService_change.
  cbn [User.password User.password_expire_on].
  rewrite Hpw, Hexp, Hself, Hold, Hfresh, String.eqb_refl. cbn [negb andb].
  repeat split.
Qed.

Section DeleteFacts.
Variable user_repo : Type.
Variable user_repo_delete : User.t -> user_repo -> result unit * user_repo.

(** X15: [UserCurrentService.delete] reaches the repository only with a
    password that verifies and has not expired. Otherwise it raises and the
    repository is as it was, although the value that [authenticate] returns
    is not looked at; with such a password the outcome is that of
    [user_repo.delete]. *)
Theorem current_user_delete_needs_password (env : ambient)
    (current_user : User.t) (password : string) (repo : user_repo) :
  let outcome :=
    UserCurrentService_delete password_service env user_repo_delete
      current_user password repo in
  let verified :=
    verify password_service password (User.password current_user) in
  let expired := User.password_expire_on current_user <? now env in
  (verified = false ->
   outcome = (Raise UserPasswordVerificationError, repo))
  /\ (verified = true -> expired = true ->
      outcome = (Raise UserPasswordExpiredError, repo))
  /\ (verified = true -> expired = false ->
      snd outcome = snd (user_repo_delete current_user repo)
      /\ match fst (user_repo_delete current_user repo) with
         | Ok _ =>
             fst outcome
             = Ok [ ("status", PStr "Success");
                    ("id", PList [PInt (User.user_id current_user)]) ]
         | Raise e => fst outcome = Raise e
         end)
  /\ (forall response, fst outcome = Ok response ->
        verified = true /\ expired = false).
Proof.
  cbv zeta.
  unfold UserCurrentService_delete, UserPasswordService_authenticate.
  destruct (verify password_service password (User.password current_user));
    cbn [negb andb];
    destruct (User.password_expire_on current_user <? now env);
    cbn [fst snd]; repeat split; try discriminate; try reflexivity;
    destruct (user_repo_delete current_user repo) as [[u|e] repo'];
    reflexivity.
Qed.
End DeleteFacts.
End CurrentUserFacts.

Lemma change_fails_without_effect_witness :
  UserPasswordService_change sample_password_service sample_ambient
    sample_user "guess" "new password" "new password" true
  = (Raise UserPasswordChangeError, sample_user).
Proof.
  apply (proj1 (change_fails_without_effect sample_password_service
                  sample_ambient sample_user "guess" "new password"
                  "new password" true)).
  reflexivity.
Defined.

Lemma change_then_authenticate_witness :
  UserPasswordService_authenticate sample_password_service
    sample_ambient_later "new password"
    (User.password
       (snd (UserPasswordService_change sample_password_service
               sample_ambient sample_user "supersecurepassword"
               "new password" "new password" true)))
    (User.password_expire_on
       (snd (UserPasswordService_change sample_password_service
               sample_ambient sample_user "supersecurepassword"
               "new password" "new password" true)))
    true
  = Ok true.
Proof.
  apply (proj1 (@change_then_authenticate sample_password_service
                  sample_ambient sample_ambient_later sample_user
                  (snd (UserPasswordService_change sample_password_service
                          sample_ambient sample_user "supersecurepassword"
                          "new password" "new password" true))
                  "supersecurepassword" "new password" "new password" true
                  [ ("status", PStr "Password Change Success");
                    ("username", PStr "user1") ]
                  "renamed" "renamed@example.org"
                  sample_password_service_exact eq_refl
                  ltac:(vm_compute; discriminate))).
Defined.

Lemma current_user_delete_needs_password_witness :
  UserCurrentService_delete sample_password_service sample_ambient
    sample_user_repo_delete sample_user "guess" [1; 2]
  = (Raise UserPasswordVerificationError, [1; 2]).
Proof.
  apply (proj1 (@current_user_delete_needs_password sample_password_service
                  (list Z) sample_user_repo_delete sample_ambient sample_user
                  "guess" [1; 2])).
  reflexivity.
Defined.


(** ** Where the links of an envelope lead *)

Section LinkFacts.
Variable V1_ROOT : string.
Context {A : Type}.
Variable build_fn : A -> pyval.

Lemma envelope_prev_build (route_prefix : string) (data : list A)
    (group_id : option Z) (query draft_type : option string)
    (index length total : Z) :
  dict_get "prev"
    (build_paging_envelope V1_ROOT route_prefix build_fn data group_id query
       draft_type index length total)
  = if 0 <? index
    then Some (PStr (build_paging_url V1_ROOT route_prefix group_id query
                       draft_type (Z.max (index - length) 0) length))
    else None.
Proof.
  unfold build_paging_envelope.
  paging_cases index length total; reflexivity.
Qed.

Lemma link_index_prev (route_prefix : string) (data : list A)
    (group_id : option Z) (query draft_type : option string)
    (index length total : Z) :
  link_index V1_ROOT route_prefix "prev"
    (build_paging_envelope V1_ROOT route_prefix build_fn data group_id query
       draft_type index length total)
  = if 0 <? index then Some (Z.max (index - length) 0) else None.
Proof.
  unfold link_index. rewrite envelope_prev_build.
  destruct (0 <? index); [|reflexivity].
  apply paging_url_index_build_paging_url.
Qed.

Lemma link_index_next (route_prefix : string) (data : list A)
    (group_id : option Z) (query draft_type : option string)
    (index length total : Z) :
  link_index V1_ROOT route_prefix "next"
    (build_paging_envelope V1_ROOT route_prefix build_fn data group_id query
       draft_type index length total)
  = if index + length <? total then Some (index + length) else None.
Proof.
  unfold link_index. rewrite envelope_next_build.
  destruct (index + length <? total); [|reflexivity].
  apply paging_url_index_build_paging_url.
Qed.

(** X16: for a page that starts at an index that is not negative, with a
    positive page length, the links of the envelope stay inside the
    listing: [prev] leads to an index from 0 up to, not including, the
    page's own, [next] to an index after the page's own and before the
    total, and the [prev] link of the page that [next] leads to comes back
    to the page. *)
Theorem envelope_links_stay_in_range (route_prefix : string)
    (data data' : list A) (group_id : option Z)
    (query draft_type : option string) (index length total : Z) :
  0 <= index -> 0 < length ->
  let envelope_at i rows :=
    build_paging_envelope V1_ROOT route_prefix build_fn rows group_id query
      draft_type i length total in
  let link key i rows :=
    link_index V1_ROOT route_prefix key (envelope_at i rows) in
  (forall i, link "prev" index data = Some i -> 0 <= i < index)
  /\ (forall i, link "next" index data = Some i -> index < i < total)
  /\ (forall i, link "next" index data = Some i ->
        link "prev" i data' = Some index)
  /\ (link "prev" index data = None <-> index = 0)
  /\ (link "next" index data = None <-> total <= index + length).
Proof.
  intros Hindex Hlength envelope_at link. unfold link, envelope_at.
  split; [|split; [|split; [|split]]].
  - intros i H. rewrite link_index_prev in H.
    destruct (Z.ltb_spec 0 index); [|discriminate].
    injection H as <-. lia.
  - intros i H. rewrite link_index_next in H.
    destruct (Z.ltb_spec (index + length) total); [|discriminate].
    injection H as <-. lia.
  - intros i H. rewrite link_index_next in H.
    destruct (Z.ltb_spec (index + length) total); [|discriminate].
    injection H as <-. rewrite link_index_prev.
    destruct (Z.ltb_spec 0 (index + length)); [|lia].
    f_equal. lia.
  - rewrite link_index_prev.
    destruct (Z.ltb_spec 0 index); split; try discriminate; try lia;
      reflexivity.
  - rewrite link_index_next.
    destruct (Z.ltb_spec (index + length) total); split; try discriminate;
      try lia; reflexivity.
Qed.
End LinkFacts.

Lemma envelope_links_stay_in_range_witness :
  link_index "api/v1" "queues" "prev"
    (build_paging_envelope "api/v1" "queues" (build_queue "api/v1") []
       (Some 1) (Some "") None 7 5 20)
  = Some 2.
Proof.
  apply (proj1 (proj2 (proj2 (@envelope_links_stay_in_range "api/v1"
                                QueueDict.t (build_queue "api/v1") "queues"
                                [] [] (Some 1) (Some "") None 2 5 20
                                ltac:(lia) ltac:(lia))))).
  reflexivity.
Defined.

(** ** A page length of zero *)

(** X17: with a page length of 0 the listing never completes. A page
    requested at an index before the total holds no item, is not complete
    and carries a [next] link to the same index, so the client that follows
    the [next] links does not come to an end, whatever its fuel. *)
Theorem zero_page_length_never_completes (V1_ROOT : string)
    (build_fn : plugin_parameter_type -> pyval) (group_id : option Z)
    (index : Z) (s : db) :
  index < Z.of_nat (List.length (latest_plugin_parameter_types group_id s)) ->
  (exists envelope,
      list_plugin_parameter_types V1_ROOT build_fn group_id index 0 s
      = Ok envelope
      /\ envelope_data envelope = []
      /\ envelope_is_complete envelope = Some false
      /\ link_index V1_ROOT PLUGIN_PARAMETER_TYPES "next" envelope
         = Some index)
  /\ forall fuel,
       follow_next_links V1_ROOT build_fn fuel group_id 0 index s = None.
Proof.
  intros Hindex.
  assert (Hnext : (index + 0 <?
                   Z.of_nat
                     (List.length
                        (latest_plugin_parameter_types group_id s)))
                  = true).
  { apply Z.ltb_lt. lia. }
  split.
  - unfold list_plugin_parameter_types. rewrite service_get_page.
    cbn [bind_result]. eexists. split; [reflexivity|].
    rewrite envelope_data_build, envelope_is_complete_build, link_index_next.
    rewrite Hnext, Z.add_0_r. unfold offset_limit.
    cbn [Z.to_nat firstn map negb]. auto.
  - intros fuel. induction fuel as [|fuel IH]; [reflexivity|].
    cbn [follow_next_links]. unfold list_plugin_parameter_types.
    rewrite service_get_page. cbn [bind_result].
    rewrite envelope_next_build, Hnext, paging_url_index_build_paging_url.
    rewrite Z.add_0_r, IH. reflexivity.
Qed.

Lemma zero_page_length_never_completes_witness :
  follow_next_links "api/v1" sample_build_fn 1000 (Some 1) 0 0 sample_db
  = None.
Proof.
  apply (proj2 (@zero_page_length_never_completes "api/v1" sample_build_fn
                  (Some 1) 0 sample_db ltac:(vm_compute; reflexivity))).
Defined.
